(** * plugin-aimo-router: wallet configuration and signer factory

    A shallow embedding of [src/utils/signer.ts] and [src/utils/config.ts]
    of the AiMo Router plugin, and the properties of key-format validation,
    chain-id resolution, settings lookup and signer construction.

    Strings are sequences of code units; the model covers the code units
    below 256, which JavaScript reads as Latin-1.  TypeScript's types are
    erased at run time, so a field typed [WalletType] holds an arbitrary
    string, and a required field may be [undefined]: the model keeps both
    possibilities, because the code tests for them. *)

From Stdlib Require Import ZArith Ascii String DecimalString List Bool.
From Stdlib.Strings Require Import Byte.
From stdpp Require Import base option strings gmap.

Local Open Scope string_scope.

(** ** JavaScript strings *)

Module Js.

(** Code units that [toLowerCase] changes, among those below 256: the
    letters A-Z, and the Latin-1 capitals U+00C0..U+00DE except the
    multiplication sign U+00D7.  Each moves up by 32. *)
Definition is_upper (c : ascii) : bool :=
  let n := N_of_ascii c in
  ((65 <=? n) && (n <=? 90) ||
   (192 <=? n) && (n <=? 222) && negb (n =? 215))%N.

Definition lower_char (c : ascii) : ascii :=
  if is_upper c then ascii_of_N (N_of_ascii c + 32) else c.

(** [String.prototype.toLowerCase] *)
Fixpoint toLowerCase (s : string) : string :=
  match s with
  | EmptyString => EmptyString
  | String c s' => String (lower_char c) (toLowerCase s')
  end.

(** Code units that [toUpperCase] maps to a single code unit below 256:
    a-z and U+00E0..U+00FE except the division sign U+00F7.  The micro
    sign, the sharp s and y with diaeresis have their upper case outside
    Latin-1 and are left alone here; the source upper-cases the wallet
    type only, for a log line. *)
Definition is_lower (c : ascii) : bool :=
  let n := N_of_ascii c in
  ((97 <=? n) && (n <=? 122) ||
   (224 <=? n) && (n <=? 254) && negb (n =? 247))%N.

Definition upper_char (c : ascii) : ascii :=
  if is_lower c then ascii_of_N (N_of_ascii c - 32) else c.

(** [String.prototype.toUpperCase] *)
Fixpoint toUpperCase (s : string) : string :=
  match s with
  | EmptyString => EmptyString
  | String c s' => String (upper_char c) (toUpperCase s')
  end.

(** [String.prototype.includes]: [needle] occurs somewhere in [s]. *)
Fixpoint includes (s needle : string) : bool :=
  String.prefix needle s ||
  match s with
  | EmptyString => false
  | String _ s' => includes s' needle
  end.

(** Truthiness of a value of type [string | undefined]: [undefined] and
    the empty string are falsy, every other string is truthy. *)
Definition truthy (v : option string) : bool :=
  match v with
  | None => false
  | Some EmptyString => false
  | Some (String _ _) => true
  end.

(** [!v] *)
Definition not (v : option string) : bool := negb (truthy v).

(** [a || b] on values of type [string | undefined] *)
Definition or (a b : option string) : option string :=
  if truthy a then a else b.

(** [a || b] where [b] is a string: the result is a string when [a] is
    a string or [undefined]. *)
Definition or_else (a : option string) (b : string) : string :=
  match a with
  | Some (String c s) => String c s
  | Some EmptyString | None => b
  end.

(** [a ?? b]: only [undefined] (and [null]) give way to [b]. *)
Definition nullish (a b : option string) : option string :=
  match a with
  | Some _ => a
  | None => b
  end.

End Js.

(** In the words of the specification: [needle] occurs in [s]. *)
Definition contains (s needle : string) : Prop :=
  exists pre post : string, s = pre +:+ needle +:+ post.

(** ** Regular expressions

    The fragment of JavaScript's regular expressions that the source uses:
    literal characters, character classes and bounded repetition.  Matching
    is by derivatives, and [test] matches the whole subject, which is what
    a pattern anchored by [^] and [$] (without the [m] flag) does. *)

Module RegExp.

Inductive t : Type :=
| Void
| Eps
| Class (p : ascii -> bool)
| Cat (r1 r2 : t)
| Alt (r1 r2 : t).

Definition Chr (c : ascii) : t := Class (Ascii.eqb c).

(** [r{n}] *)
Fixpoint Repeat (n : nat) (r : t) : t :=
  match n with
  | O => Eps
  | S n' => Cat r (Repeat n' r)
  end.

Fixpoint nullable (r : t) : bool :=
  match r with
  | Void => false
  | Eps => true
  | Class _ => false
  | Cat r1 r2 => nullable r1 && nullable r2
  | Alt r1 r2 => nullable r1 || nullable r2
  end.

Fixpoint deriv (c : ascii) (r : t) : t :=
  match r with
  | Void => Void
  | Eps => Void
  | Class p => if p c then Eps else Void
  | Cat r1 r2 =>
      if nullable r1
      then Alt (Cat (deriv c r1) r2) (deriv c r2)
      else Cat (deriv c r1) r2
  | Alt r1 r2 => Alt (deriv c r1) (deriv c r2)
  end.

(** [/^r$/.test(s)] *)
Fixpoint test (r : t) (s : string) : bool :=
  match s with
  | EmptyString => nullable r
  | String c s' => test (deriv c r) s'
  end.

(** The language of a regular expression. *)
Inductive Lang : t -> string -> Prop :=
| L_Eps : Lang Eps ""
| L_Class p c : p c = true -> Lang (Class p) (String c "")
| L_Cat r1 r2 s1 s2 :
    Lang r1 s1 -> Lang r2 s2 -> Lang (Cat r1 r2) (s1 +:+ s2)
| L_AltL r1 r2 s : Lang r1 s -> Lang (Alt r1 r2) s
| L_AltR r1 r2 s : Lang r2 s -> Lang (Alt r1 r2) s.

End RegExp.

(** ** [src/utils/signer.ts]: key formats *)

(** [[0-9a-fA-F]] *)
Definition hex_digit (c : ascii) : bool :=
  let n := N_of_ascii c in
  ((48 <=? n) && (n <=? 57) ||
   (97 <=? n) && (n <=? 102) ||
   (65 <=? n) && (n <=? 70))%N.

(** [/^0x[0-9a-fA-F]{64}$/] *)
Definition evm_key_pattern : RegExp.t :=
  RegExp.Cat (RegExp.Chr "0")
    (RegExp.Cat (RegExp.Chr "x")
       (RegExp.Repeat 64 (RegExp.Class hex_digit))).

Definition validateEvmPrivateKey (privateKey : string) : bool :=
  RegExp.test evm_key_pattern privateKey.

(** The format in the words of the specification: the prefix [0x] followed
    by exactly 64 hexadecimal characters. *)
Fixpoint all_chars (p : ascii -> bool) (s : string) : bool :=
  match s with
  | EmptyString => true
  | String c s' => p c && all_chars p s'
  end.

Definition evm_key_format (s : string) : Prop :=
  exists digits : string,
    s = "0x" +:+ digits /\
    String.length digits = 64 /\
    all_chars hex_digit digits = true.

(** ** Errors and effects *)

(** The errors of the signer factory, one constructor for each [throw] of
    the source, and one for whatever a library call throws. *)
Inductive Error : Type :=
| WalletTypeRequired
| PrivateKeyRequired
| InvalidPrivateKeyFormat (walletType expectedFormat : string)
| UnknownWalletType (walletType : string)
| LibraryError (message : string).

(** The [message] of the thrown [Error] object. *)
Definition Error_message (e : Error) : string :=
  match e with
  | WalletTypeRequired => "Wallet type is required (svm or evm)"
  | PrivateKeyRequired => "Private key is required"
  | InvalidPrivateKeyFormat walletType expectedFormat =>
      "Invalid private key format for " +:+ walletType +:+
      " wallet. Expected: " +:+ expectedFormat
  | UnknownWalletType walletType => "Unknown wallet type: " +:+ walletType
  | LibraryError message => message
  end.

(** A function that returns or throws has its result in [Error + A]. *)
#[global] Instance Error_bind : MBind (sum Error) := fun A B f r =>
  match r with
  | inl e => inl e
  | inr a => f a
  end.

#[global] Instance Error_fmap : FMap (sum Error) := fun A B f r =>
  match r with
  | inl e => inl e
  | inr a => inr (f a)
  end.

(** What [createSignerFromConfig] does besides computing: the calls it
    makes to the chain-id resolver, to the logger and to the two signer
    constructors, in order. *)
Inductive Event : Type :=
| Call_getChainIdForWallet (walletType chainIdString : string)
| Log_info (message : string)
| Call_createSvmSigner (privateKey : string) (chainId : option string)
| Call_createEvmSigner (privateKey : string) (chainId : option string).

(** A computation that records events and returns or throws. *)
Record Eff (A : Type) : Type := MkEff {
  trace : list Event;
  result : Error + A
}.
Arguments MkEff {A} _ _.
Arguments trace {A} _.
Arguments result {A} _.

Definition throw {A : Type} (e : Error) : Eff A := MkEff [] (inl e).

Definition emit (ev : Event) : Eff unit := MkEff [ev] (inr tt).

(** A call that computes without events: its result or its exception. *)
Definition lift {A : Type} (r : Error + A) : Eff A := MkEff [] r.

#[global] Instance Eff_ret : MRet Eff := fun A a => MkEff [] (inr a).

#[global] Instance Eff_bind : MBind Eff := fun A B f m =>
  match result m with
  | inl e => MkEff (trace m) (inl e)
  | inr a => MkEff (trace m ++ trace (f a)) (result (f a))
  end.

(** The computation threw before it did anything. *)
Definition fails_fast {A : Type} (m : Eff A) (e : Error) : Prop :=
  trace m = [] /\ result m = inl e.

(** A signer constructor was called. *)
Definition is_constructor_call (ev : Event) : bool :=
  match ev with
  | Call_createSvmSigner _ _ | Call_createEvmSigner _ _ => true
  | _ => false
  end.

Definition constructs_signer {A : Type} (m : Eff A) : bool :=
  existsb is_constructor_call (trace m).

(** ** The libraries the plugin imports

    [@aimo.network/svm], [@aimo.network/evm], [bs58], [@solana/kit] and
    [viem/accounts] are not part of the repository: their constants and
    functions are parameters of the development.  A library function
    returns its value, or the message of the error it throws. *)
Class Libraries : Type := {
  SOLANA_MAINNET_CHAIN_ID : string;
  SOLANA_DEVNET_CHAIN_ID : string;
  EVM_MAINNET_CHAIN_ID : string;
  (** [bs58.decode] *)
  bs58_decode : string -> string + list Byte.byte;
  KeyPairSigner : Type;
  createKeyPairSignerFromBytes : list Byte.byte -> string + KeyPairSigner;
  Account : Type;
  privateKeyToAccount : string -> string + Account
}.

(** A library call inside the plugin's code: what it throws becomes a
    [LibraryError]. *)
Definition library {A : Type} (r : string + A) : Error + A :=
  match r with
  | inl message => inl (LibraryError message)
  | inr a => inr a
  end.

(** ** [src/utils/signer.ts] *)

Record SignerConfig : Type := {
  walletType : option string;
  privateKey : option string;
  chainId : option string
}.

Section Signer.
Context `{Libs : Libraries}.

Record SvmClientSigner : Type := {
  svm_signer : KeyPairSigner;
  svm_chainId : string
}.

Record EvmClientSigner : Type := {
  evm_signer : Account;
  evm_chainId : string
}.

(** [SvmClientSigner | EvmClientSigner] *)
Inductive ClientSigner : Type :=
| Svm (s : SvmClientSigner)
| Evm (s : EvmClientSigner).

Definition validateSvmPrivateKey (privateKey : string) : bool :=
  match bs58_decode privateKey with
  | inr decoded => (length decoded =? 64)%nat  (* try *)
  | inl _ => false                           (* catch *)
  end.

Definition validateWalletConfig (walletType privateKey : string) : bool :=
  if (walletType =? "svm")%string then validateSvmPrivateKey privateKey
  else if (walletType =? "evm")%string then validateEvmPrivateKey privateKey
  else false.

Definition SEPOLIA_CHAIN_ID : string := "eip155:11155111".

Definition getChainIdForWallet (walletType chainIdString : string)
  : Error + string :=
  let lowerChain := Js.toLowerCase chainIdString in
  if (walletType =? "svm")%string then
    if Js.includes lowerChain "devnet"
    then inr SOLANA_DEVNET_CHAIN_ID
    else inr SOLANA_MAINNET_CHAIN_ID
  else if (walletType =? "evm")%string then
    if Js.includes lowerChain "sepolia" || (chainIdString =? "11155111")%string
    then inr SEPOLIA_CHAIN_ID
    else inr EVM_MAINNET_CHAIN_ID
  else inl (UnknownWalletType walletType).

(** The parameter [chainId] defaults to the family's mainnet when the
    argument is [undefined]. *)
Definition createSvmSigner (privateKey : string) (chainId : option string)
  : Error + SvmClientSigner :=
  privateKeyBytes ← library (bs58_decode privateKey);
  keypairSigner ← library (createKeyPairSignerFromBytes privateKeyBytes);
  inr {| svm_signer := keypairSigner;
         svm_chainId := default SOLANA_MAINNET_CHAIN_ID chainId |}.

Definition createEvmSigner (privateKey : string) (chainId : option string)
  : Error + EvmClientSigner :=
  account ← library (privateKeyToAccount privateKey);
  inr {| evm_signer := account;
         evm_chainId := default EVM_MAINNET_CHAIN_ID chainId |}.

Definition expectedFormat (walletType : string) : string :=
  if (walletType =? "svm")%string
  then "base58 encoded (64 bytes when decoded)"
  else "hex string starting with 0x (64 hex characters)".

(** [config.chainId ? getChainIdForWallet(config.walletType, config.chainId)
    : undefined] *)
Definition resolveChainId (walletType : string) (chainId : option string)
  : Eff (option string) :=
  match chainId with
  | Some (String c s) =>
      emit (Call_getChainIdForWallet walletType (String c s));;
      id ← lift (getChainIdForWallet walletType (String c s));
      mret (Some id)
  | Some EmptyString | None => mret None
  end.

Definition createSignerFromConfig (config : SignerConfig)
  : Eff ClientSigner :=
  match walletType config with
  | None | Some EmptyString =>                     (* !config.walletType *)
      throw WalletTypeRequired
  | Some walletType =>
      match privateKey config with
      | None | Some EmptyString =>                 (* !config.privateKey *)
          throw PrivateKeyRequired
      | Some privateKey =>
          if negb (validateWalletConfig walletType privateKey) then
            throw (InvalidPrivateKeyFormat walletType
                     (expectedFormat walletType))
          else
            chainId ← resolveChainId walletType (chainId config);
            emit (Log_info ("Creating " +:+ Js.toUpperCase walletType +:+
                            " signer for chain: " +:+
                            Js.or_else chainId "default"));;
            if (walletType =? "svm")%string then
              emit (Call_createSvmSigner privateKey chainId);;
              lift (Svm <$> createSvmSigner privateKey chainId)
            else if (walletType =? "evm")%string then
              emit (Call_createEvmSigner privateKey chainId);;
              lift (Evm <$> createEvmSigner privateKey chainId)
            else
              throw (UnknownWalletType walletType)
      end
  end.

(** Lines 220 to 230 on their own: what the factory does once its three
    checks have passed. *)
Definition construct (w pk : string) (cid : option string)
  : Eff ClientSigner :=
  chainId ← resolveChainId w cid;
  emit (Log_info ("Creating " +:+ Js.toUpperCase w +:+
                  " signer for chain: " +:+ Js.or_else chainId "default"));;
  if (w =? "svm")%string then
    emit (Call_createSvmSigner pk chainId);;
    lift (Svm <$> createSvmSigner pk chainId)
  else if (w =? "evm")%string then
    emit (Call_createEvmSigner pk chainId);;
    lift (Evm <$> createEvmSigner pk chainId)
  else throw (UnknownWalletType w).

End Signer.

(** ** [src/utils/config.ts] *)

(** Numbers of the host language and their [String(n)]. *)
Class Numbers : Type := {
  Number : Type;
  Number_toString : Number -> string
}.

Section Config.
Context `{Nums : Numbers}.

(** What the runtime's settings store returns for a key. *)
Inductive SettingValue : Type :=
| VUndefined
| VNull
| VString (s : string)
| VNumber (n : Number)
| VBoolean (b : bool).

(** [String(value)] *)
Definition ToString (value : SettingValue) : string :=
  match value with
  | VUndefined => "undefined"
  | VNull => "null"
  | VString s => s
  | VNumber n => Number_toString n
  | VBoolean true => "true"
  | VBoolean false => "false"
  end.

Definition is_undefined (value : SettingValue) : bool :=
  match value with VUndefined => true | _ => false end.

Definition is_null (value : SettingValue) : bool :=
  match value with VNull => true | _ => false end.

(** The part of [IAgentRuntime] that the plugin uses. *)
Record IAgentRuntime : Type := {
  runtime_getSetting : string -> SettingValue
}.

(** The runtime and [process.env]. *)
Variable runtime : IAgentRuntime.
Variable env : gmap string string.

Definition getSetting (key : string) (defaultValue : option string)
  : option string :=
  let value := runtime_getSetting runtime key in
  if negb (is_undefined value) && negb (is_null value)
  then Some (ToString value)
  else Js.nullish (env !! key) defaultValue.

Definition getWalletType : option string :=
  let walletType := getSetting "AIMO_WALLET_TYPE" None in
  if Js.not walletType ||
     (bool_decide (walletType ≠ Some "svm") &&
      bool_decide (walletType ≠ Some "evm"))
  then None
  else walletType.

Definition getPrivateKey : option string :=
  getSetting "AIMO_PRIVATE_KEY" None.

Definition getChainId : option string :=
  Js.or (getSetting "AIMO_CHAIN_ID" None) None.

Definition getSignerConfig : option SignerConfig :=
  let walletType := getWalletType in
  let privateKey := getPrivateKey in
  let chainId := getChainId in
  if Js.not walletType || Js.not privateKey then None
  else Some {| walletType := walletType;
               privateKey := privateKey;
               chainId := chainId |}.

End Config.

(** ** A concrete instance

    The theorems below hold for every instance of [Libraries] and of
    [Numbers].  To run the definitions on concrete keys and settings, this
    instance takes the chain identifiers listed in the README, a decoder
    for the Bitcoin base58 alphabet that [bs58] uses, and integers printed
    in decimal for the numbers. *)

Module Reference.

Definition alphabet : string :=
  "123456789ABCDEFGHJKLMNPQRSTUVWXYZabcdefghijkmnopqrstuvwxyz".

Fixpoint index_of (c : ascii) (s : string) : option N :=
  match s with
  | EmptyString => None
  | String d s' =>
      if Ascii.eqb c d then Some 0%N else N.succ <$> index_of c s'
  end.

(** The leading [1]s, each of which stands for a zero byte, and the
    rest of the string. *)
Fixpoint leading_ones (s : string) : nat * string :=
  match s with
  | String "1" s' => let '(n, rest) := leading_ones s' in (S n, rest)
  | _ => (O, s)
  end.

(** The number that the digits denote in base 58, or [None] when a
    character is not in the alphabet. *)
Fixpoint digits_value (s : string) (acc : N) : option N :=
  match s with
  | EmptyString => Some acc
  | String c s' =>
      d ← index_of c alphabet;
      digits_value s' (acc * 58 + d)%N
  end.

Definition byte_of_N (n : N) : Byte.byte :=
  default Byte.x00 (Byte.of_N (n mod 256)).

(** The bytes of [n], most significant first; [fuel] bounds their
    number. *)
Fixpoint big_endian (fuel : nat) (n : N) (acc : list Byte.byte)
  : list Byte.byte :=
  match fuel with
  | O => acc
  | S fuel' =>
      if (n =? 0)%N then acc
      else big_endian fuel' (n / 256) (byte_of_N n :: acc)
  end.

Definition decode (s : string) : string + list Byte.byte :=
  let '(zeroes, rest) := leading_ones s in
  match digits_value rest 0 with
  | None => inl "Non-base58 character"
  | Some n =>
      inr (replicate zeroes Byte.x00 ++
           big_endian (String.length rest) n [])%list
  end.

Definition libraries : Libraries := {|
  SOLANA_MAINNET_CHAIN_ID := "solana:5eykt4UsFv8P8NJdTREpY1vzqKqZKvdp";
  SOLANA_DEVNET_CHAIN_ID := "solana:EtWTRABZaYq6iMfeYKouRu166VU2xqa1";
  EVM_MAINNET_CHAIN_ID := "eip155:1";
  bs58_decode := decode;
  KeyPairSigner := list Byte.byte;
  createKeyPairSignerFromBytes := fun bytes =>
    if (length bytes =? 64)%nat then inr bytes
    else inl "invalid key pair bytes";
  Account := string;
  privateKeyToAccount := inr
|}.

Definition numbers : Numbers := {|
  Number := Z;
  Number_toString := fun z => NilZero.string_of_int (Z.to_int z)
|}.

(** A settings store given by a list of bindings. *)
Definition store (bindings : list (string * @SettingValue numbers))
  : @IAgentRuntime numbers :=
  {| runtime_getSetting := fun key =>
       default VUndefined (list_to_map (M := gmap string _) bindings !! key)
  |}.

Definition evm_key : string :=
  "0x1234567890abcdef1234567890abcdef1234567890abcdef1234567890ABCDEF".

(** 64 zero bytes in base58. *)
Definition svm_key : string :=
  "1111111111111111111111111111111111111111111111111111111111111111".

(** A configuration whose private key is present and empty. *)
Definition empty_key_config : SignerConfig :=
  {| walletType := Some "evm"; privateKey := Some ""; chainId := None |}.

Definition evm_config : SignerConfig :=
  {| walletType := Some "evm";
     privateKey := Some evm_key;
     chainId := Some "sepolia" |}.

(** Settings in which the private key is set to the empty string. *)
Definition empty_key_store : @IAgentRuntime numbers :=
  store [("AIMO_WALLET_TYPE", VString "evm");
         ("AIMO_PRIVATE_KEY", VString "")].

(** Settings with a malformed key and an empty chain id. *)
Definition evm_store : @IAgentRuntime numbers :=
  store [("AIMO_WALLET_TYPE", VString "evm");
         ("AIMO_PRIVATE_KEY", VString "not-a-key");
         ("AIMO_CHAIN_ID", VString "")].

End Reference.

(** ** The rest of [src/utils/config.ts] *)

(** [a ?? b] where [b] is a string. *)
Definition nullish_else (a : option string) (b : string) : string :=
  match a with
  | Some s => s
  | None => b
  end.

(** A line of the logger: the method called and the message. *)
Inductive LogLevel : Type := LDebug | LInfo | LLog | LWarn | LError.

Definition LogEntry : Type := (LogLevel * string)%type.

Section ConfigRest.
Context `{Nums : Numbers} `{Libs : Libraries}.
Variable runtime : IAgentRuntime.
Variable env : gmap string string.

Definition getBaseURL : string :=
  Js.or_else
    (getSetting runtime env "AIMO_BASE_URL" (Some "https://beta.aimo.network"))
    "https://beta.aimo.network".

Definition getSmallModel : string :=
  nullish_else
    (Js.nullish (getSetting runtime env "AIMO_SMALL_MODEL" None)
       (getSetting runtime env "SMALL_MODEL" (Some "openai/gpt-4o-mini")))
    "openai/gpt-4o-mini".

Definition getLargeModel : string :=
  nullish_else
    (Js.nullish (getSetting runtime env "AIMO_LARGE_MODEL" None)
       (getSetting runtime env "LARGE_MODEL" (Some "openai/gpt-4o")))
    "openai/gpt-4o".

(** The warnings logged and the value returned. *)
Definition validateWalletConfiguration : list LogEntry * bool :=
  match getWalletType runtime env with
  | None | Some EmptyString =>                          (* !walletType *)
      ([(LWarn, "AIMO_WALLET_TYPE is not set (should be 'svm' or 'evm')")],
       false)
  | Some walletType =>
      match getPrivateKey runtime env with
      | None | Some EmptyString =>                      (* !privateKey *)
          ([(LWarn, "AIMO_PRIVATE_KEY is not set")], false)
      | Some privateKey =>
          if negb (validateWalletConfig walletType privateKey) then
            ([(LWarn, "Invalid AIMO_PRIVATE_KEY format for " +:+ walletType +:+
                      " wallet. Expected: " +:+ expectedFormat walletType)],
             false)
          else ([], true)
      end
  end.

(** ** [src/init.ts]

    The lines that the background task of [initializeAimoRouter] logs.
    Its [catch] handles what the body throws; the body reads settings and
    validates, which throw nothing here, so the error line is not among
    them. *)
Definition initializeAimoRouter : list LogEntry :=
  let '(warnings, valid) := validateWalletConfiguration in
  ((LInfo, "Initializing AiMo Router plugin...") :: warnings ++
   (if negb valid then
      [(LWarn,
        "AiMo wallet configuration is incomplete or invalid. " +:+
        "Please set AIMO_WALLET_TYPE ('svm' or 'evm') and AIMO_PRIVATE_KEY environment variables. " +:+
        "AiMo functionality will be limited until proper configuration is provided.")]
    else [(LLog, "AiMo Router plugin initialized successfully")]))%list.

End ConfigRest.

(** ** [src/providers/aimo-router.ts] *)

(** [aimoNetwork] of [@aimo.network/provider], which builds the client
    from the signer and the base URL, or throws. *)
Class ProviderLibrary `{Libs : Libraries} : Type := {
  Provider : Type;
  aimoNetwork : ClientSigner -> string -> string + Provider
}.

(** The errors of [createAimoRouterProvider]: its own two, those of the
    signer factory, and what [aimoNetwork] throws. *)
Inductive ProviderError : Type :=
| BrowserNotSupported
| ConfigurationIncomplete
| SignerError (e : Error)
| ProviderLibraryError (message : string).

Definition ProviderError_message (e : ProviderError) : string :=
  match e with
  | BrowserNotSupported =>
      "AiMo plugin does not support browser execution. Please use Node.js environment. " +:+
      "Browser support is planned for future releases using WalletConnect or proxy-based solutions."
  | ConfigurationIncomplete =>
      "AiMo wallet configuration is incomplete. Please set AIMO_WALLET_TYPE and AIMO_PRIVATE_KEY environment variables."
  | SignerError e => Error_message e
  | ProviderLibraryError message => message
  end.

Section ProviderDef.
Context `{Nums : Numbers} `{PLib : ProviderLibrary}.
Variable runtime : IAgentRuntime.
Variable env : gmap string string.

(** [isBrowser] is whether [globalThis.document] is truthy.  The result
    is the events of the run and the provider or the error thrown. *)
Definition createAimoRouterProvider (isBrowser : bool)
  : list Event * (ProviderError + Provider) :=
  if isBrowser then ([], inl BrowserNotSupported)
  else
    let signerConfig := getSignerConfig runtime env in
    let baseURL := getBaseURL runtime env in
    match signerConfig with
    | None => ([], inl ConfigurationIncomplete)
    | Some signerConfig =>
        let run := createSignerFromConfig signerConfig in
        match result run with
        | inl e => (trace run, inl (SignerError e))
        | inr signer =>
            (trace run ++
             (* the wallet type of a configuration that [getSignerConfig]
                returns is a string *)
             [Log_info ("Creating AiMo Network provider with " +:+
                        Js.toUpperCase
                          (nullish_else (walletType signerConfig) "") +:+
                        " wallet")],
             match aimoNetwork signer baseURL with
             | inl message => inl (ProviderLibraryError message)
             | inr provider => inr provider
             end)%list
        end
    end.

End ProviderDef.

(** ** [src/utils/helpers.ts] *)

(** The three alternatives of [/```json\n|\n```|```/g]. *)
Definition fence_json : string :=
  Eval cbv in ("```json" +:+ String "010" "").

Definition fence_close : string :=
  Eval cbv in (String "010" "" +:+ "```").

Definition fence : string := "```".

(** [text.replace(/```json\n|\n```|```/g, "")]: at each position, from
    the left, the first alternative that matches is removed, and the
    search goes on behind it; [skip] counts the characters of a match
    that are still to be dropped. *)
Fixpoint replace_fences (skip : nat) (text : string) : string :=
  match text with
  | EmptyString => EmptyString
  | String c rest =>
      match skip with
      | S skip' => replace_fences skip' rest
      | O =>
          if String.prefix fence_json text then replace_fences 7 rest
          else if String.prefix fence_close text then replace_fences 3 rest
          else if String.prefix fence text then replace_fences 2 rest
          else String c (replace_fences 0 rest)
      end
  end.

Definition cleanText (text : string) : string := replace_fences 0 text.

(** [JSON.parse]: the value, or the message of the [SyntaxError]. *)
Class JsonLibrary : Type := {
  JsonValue : Type;
  JSON_parse : string -> string + JsonValue
}.

(** A caught value of type [unknown]: a [JSONParseError] of the [ai]
    package with its message and its text, another [Error], or a value
    that is no [Error], with its [String(value)]. *)
Inductive Caught : Type :=
| JSONParseError (message text : string)
| OtherError (message : string)
| NonError (asString : string).

(** What [handleObjectGenerationError] throws: the value it was given,
    the error of the second [JSON.parse], or a new [Error] around a
    value that was none. *)
Inductive Rethrown : Type :=
| Original
| RepairParseError (message : string)
| Wrapped (message : string).

Section Helpers.
Context `{Json : JsonLibrary}.

(** The function that [getJsonRepairFunction] returns, applied to
    [{text, error}]: the lines logged, and the repaired text or [null]. *)
Definition getJsonRepairFunction (text : string) (error : Caught)
  : list LogEntry * option string :=
  match error with
  | JSONParseError _ _ =>
      let cleanedText := cleanText text in
      match JSON_parse cleanedText with
      | inr _ => ([], Some cleanedText)
      | inl message =>                                         (* catch *)
          ([(LWarn, "Failed to repair JSON text: " +:+ message)], None)
      end
  | _ => ([], None)
  end.

Definition handleObjectGenerationError (error : Caught)
  : list LogEntry * (Rethrown + JsonValue) :=
  match error with
  | JSONParseError message text =>
      let entry :=
        (LError, "[generateObject] Failed to parse JSON: " +:+ message) in
      let '(logged, repairedJsonString) :=
        getJsonRepairFunction text error in
      match repairedJsonString with
      | Some (String c s) =>                       (* if (repairedJsonString) *)
          match JSON_parse (String c s) with
          | inr repairedObject =>
              (entry :: logged ++
               [(LLog, "[generateObject] Successfully repaired JSON.")],
               inr repairedObject)%list
          | inl message' =>
              (entry :: logged ++
               [(LError, "[generateObject] Failed to parse repaired JSON: "
                         +:+ message')],
               inl (RepairParseError message'))%list
          end
      | Some EmptyString | None =>
          (entry :: logged ++
           [(LError, "[generateObject] JSON repair failed.")],
           inl Original)%list
      end
  | OtherError message =>
      ([(LError, "[generateObject] Unknown error: " +:+ message)],
       inl Original)
  | NonError message =>
      ([(LError, "[generateObject] Unknown error: " +:+ message)],
       inl (Wrapped message))
  end.

End Helpers.

(** ** [src/models/embedding.ts] *)

(** White space and line terminators among the code units below 256:
    tab, line feed, vertical tab, form feed, carriage return, space and
    the no-break space. *)
Definition js_whitespace (c : ascii) : bool :=
  let n := N_of_ascii c in
  ((9 <=? n) && (n <=? 13) || (n =? 32) || (n =? 160))%N.

Fixpoint trimStart (s : string) : string :=
  match s with
  | EmptyString => EmptyString
  | String c s' => if js_whitespace c then trimStart s' else s
  end.

(** [String.prototype.trim] *)
Definition trim (s : string) : string :=
  String.rev (trimStart (String.rev (trimStart s))).

(** The number literals of the placeholder vectors: [0], [0.1], [0.2],
    [0.3] and [0.4]. *)
Inductive Component : Type := C_0 | C_0_1 | C_0_2 | C_0_3 | C_0_4.

(** [TextEmbeddingParams | string | null]; the [text] of an object may be
    missing at run time. *)
Inductive EmbeddingParams : Type :=
| ParamsNull
| ParamsString (s : string)
| ParamsObject (text : option string).

(** [v[0] = x], which makes an empty array one element long. *)
Definition set_first {A : Type} (x : A) (v : list A) : list A :=
  match v with
  | [] => [x]
  | _ :: rest => x :: rest
  end.

(** What the handler needs of the host's numbers and of
    [@elizaos/core]: [Number.parseInt(s, 10)], the values of
    [VECTOR_DIMS], the equality that [Array.prototype.includes] uses, and
    the length of [Array(n)], which is none when [n] is no array length
    and [Array] throws a [RangeError]. *)
Class EmbeddingHost `{Nums : Numbers} : Type := {
  parseInt10 : string -> Number;
  VECTOR_DIMS_values : list Number;
  sameValueZero : Number -> Number -> bool;
  arrayLength : Number -> option nat
}.

Inductive EmbeddingError : Type :=
| InvalidEmbeddingDimension (message : string)
| RangeError.

Section Embedding.
Context `{Host : EmbeddingHost}.
Variable runtime : IAgentRuntime.
Variable env : gmap string string.

Definition embeddingDimension : Number :=
  parseInt10
    (nullish_else
       (Js.nullish (getSetting runtime env "AIMO_EMBEDDING_DIMENSIONS" None)
          (getSetting runtime env "EMBEDDING_DIMENSIONS" None))
       "1536").

(** [Array(embeddingDimension).fill(0)] with its first component set,
    after the lines logged so far. *)
Definition placeholder (logged : list LogEntry) (first : Component)
  : list LogEntry * (EmbeddingError + list Component) :=
  match arrayLength embeddingDimension with
  | None => (logged, inl RangeError)
  | Some n => (logged, inr (set_first first (replicate n C_0)))
  end.

Definition handleTextEmbedding (params : EmbeddingParams)
  : list LogEntry * (EmbeddingError + list Component) :=
  if negb (existsb (sameValueZero embeddingDimension) VECTOR_DIMS_values)
  then
    let errorMsg :=
      "Invalid embedding dimension: " +:+
      Number_toString embeddingDimension +:+ ". Must be one of: " +:+
      String.concat ", " (map Number_toString VECTOR_DIMS_values) in
    ([(LError, errorMsg)], inl (InvalidEmbeddingDimension errorMsg))
  else
    match params with
    | ParamsNull =>
        placeholder
          [(LDebug, "Creating test embedding for initialization")] C_0_1
    | _ =>
        let unsupported :=
          (LWarn, "TEXT_EMBEDDING is not yet supported by AiMo Network. Returning placeholder embedding.") in
        let text :=
          match params with
          | ParamsString s => Some s
          | ParamsObject (Some (String c s)) => Some (String c s)
          | _ => None
          end in
        match text with
        | None =>
            placeholder
              [unsupported; (LWarn, "Invalid input format for embedding")]
              C_0_2
        | Some text =>
            if (trim text =? "")%string then                 (* !text.trim() *)
              placeholder
                [unsupported; (LWarn, "Empty text for embedding")] C_0_3
            else
              let '(logged, vector) := placeholder [unsupported] C_0_4 in
              match vector with
              | inl e => (logged, inl e)
              | inr placeholderVector =>
                  (logged ++
                   [(LLog, "Generated placeholder embedding for text (length: "
                           +:+ NilZero.string_of_uint
                                 (Nat.to_uint (String.length text))
                           +:+ ")")],
                   inr placeholderVector)%list
              end
        end
    end.

End Embedding.

(** A character of the base58 alphabet. *)
Definition base58_char (c : ascii) : bool :=
  match Reference.index_of c Reference.alphabet with
  | Some _ => true
  | None => false
  end.

(** ** More of the concrete instance *)

Module Samples.

(** A provider that records what it was built from. *)
Definition provider : @ProviderLibrary Reference.libraries := {|
  Provider := (@ClientSigner Reference.libraries * string)%type;
  aimoNetwork := fun signer baseURL => inr (signer, baseURL)
|}.


(** A parser that accepts the empty object and nothing else. *)
Definition json : JsonLibrary := {|
  JsonValue := unit;
  JSON_parse := fun s =>
    if (s =? "{}")%string then inr tt else inl "Unexpected token"
|}.

Definition fenced_object : string :=
  fence_json +:+ "{}" +:+ fence_close.

(** Settings with a well-formed EVM key and the chain id of Sepolia. *)
Definition sepolia_store : @IAgentRuntime Reference.numbers :=
  Reference.store [("AIMO_WALLET_TYPE", VString "evm");
                   ("AIMO_PRIVATE_KEY", VString Reference.evm_key);
                   ("AIMO_CHAIN_ID", VString "sepolia")].

(** Numbers that are integers; [parseInt10] reads a string of digits
    and gives [-1] for every other string, where JavaScript has [NaN]. *)
Fixpoint digits (s : string) (acc : Z) : Z :=
  match s with
  | EmptyString => acc
  | String c s' =>
      let n := Z.of_N (N_of_ascii c) in
      if ((48 <=? n) && (n <=? 57))%Z then digits s' (acc * 10 + (n - 48))%Z
      else (-1)%Z
  end.

Definition parse_digits (s : string) : Z :=
  match s with
  | EmptyString => (-1)%Z
  | _ => digits s 0
  end.

Definition array_length (n : Z) : option nat :=
  if ((0 <=? n) && (n <? 2 ^ 32))%Z then Some (Z.to_nat n) else None.

Definition embedding : @EmbeddingHost Reference.numbers :=
  @Build_EmbeddingHost Reference.numbers
    parse_digits [384; 512; 768; 1024; 1536; 3072]%Z Z.eqb array_length.

End Samples.

(** * Properties *)

(** ** Matching by derivatives is matching *)

Lemma append_nil_l (s : string) : "" +:+ s = s.
Proof. reflexivity. Qed.

Lemma append_cons (c : ascii) (s1 s2 : string) :
  String c s1 +:+ s2 = String c (s1 +:+ s2).
Proof. reflexivity. Qed.

Lemma append_nil_r (s : string) : s +:+ "" = s.
Proof.
  induction s as [|c s IH]; [reflexivity |].
  now rewrite append_cons, IH.
Qed.

Lemma append_assoc (s1 s2 s3 : string) :
  (s1 +:+ s2) +:+ s3 = s1 +:+ (s2 +:+ s3).
Proof.
  induction s1 as [|c s1 IH]; [reflexivity |].
  now rewrite !append_cons, IH.
Qed.

Section RegExpFacts.
Import RegExp.

Lemma Lang_nullable r : nullable r = true <-> Lang r "".
Proof.
  induction r as [| | p | r1 IH1 r2 IH2 | r1 IH1 r2 IH2]; simpl.
  - split; [discriminate | inversion 1].
  - split; [constructor | reflexivity].
  - split; [discriminate | inversion 1].
  - rewrite andb_true_iff, IH1, IH2. split.
    + intros [H1 H2]. rewrite <- (append_nil_l ""). now constructor.
    + inversion 1 as [| | ? ? s1 s2 H1 H2 |  |]; subst.
      destruct s1; [| discriminate].
      rewrite append_nil_l in *; subst. tauto.
  - rewrite orb_true_iff, IH1, IH2. split.
    + intros [H|H]; [now apply L_AltL | now apply L_AltR].
    + inversion 1; subst; tauto.
Qed.

Lemma Lang_deriv c r s : Lang (deriv c r) s <-> Lang r (String c s).
Proof.
  revert s. induction r; intros s; simpl.
  - split; intros H; inversion H.
  - split; intros H; inversion H.
  - destruct (p c) eqn:Hp; split; intros H; inversion H; subst.
    + now constructor.
    + constructor.
    + congruence.
  - assert (Hcat : Lang (Cat (deriv c r1) r2) s ->
                   Lang (Cat r1 r2) (String c s)).
    { intros H; inversion H; subst.
      change (String c (s1 +:+ s2)) with (String c s1 +:+ s2).
      constructor; [now apply IHr1 | assumption]. }
    assert (Hinv : Lang (Cat r1 r2) (String c s) ->
                   Lang (Cat (deriv c r1) r2) s \/
                   (Lang r1 "" /\ Lang r2 (String c s))).
    { intros H; inversion H; subst.
      destruct s1 as [|c1 s1];
        rewrite ?append_nil_l, ?append_cons in *.
      - right; subst; tauto.
      - left. match goal with E : String _ _ = String _ _ |- _ =>
                injection E as -> <- end.
        constructor; [now apply IHr1 | assumption]. }
    destruct (nullable r1) eqn:Hn.
    + split; intros H.
      * inversion H; subst; [now apply Hcat |].
        change (String c s) with ("" +:+ String c s).
        constructor; [now apply Lang_nullable | now apply IHr2].
      * destruct (Hinv H) as [H1 | [_ H2]];
          [now apply L_AltL | apply L_AltR; now apply IHr2].
    + split; [apply Hcat |]. intros H.
      destruct (Hinv H) as [H1 | [H1 _]]; [assumption |].
      apply Lang_nullable in H1. congruence.
  - split; intros H; inversion H; subst;
      (apply L_AltL; now apply IHr1) || (apply L_AltR; now apply IHr2).
Qed.

Lemma test_Lang r s : test r s = true <-> Lang r s.
Proof.
  revert r. induction s as [|c s IH]; intros r; simpl.
  - apply Lang_nullable.
  - rewrite IH. apply Lang_deriv.
Qed.

End RegExpFacts.


(** ** Strings *)

Lemma prefix_iff (p s : string) :
  String.prefix p s = true <-> exists post, s = p +:+ post.
Proof.
  revert s. induction p as [|c p IH]; intros s; simpl.
  - split; [intros _; now exists s | intros _; now destruct s].
  - destruct s as [|d s]; simpl.
    + split; [discriminate | intros [post E]; discriminate].
    + destruct (ascii_dec c d) as [->|Hne].
      * rewrite IH. split; intros [post E]; exists post.
        -- now rewrite append_cons, E.
        -- rewrite append_cons in E. now injection E.
      * split; [discriminate |].
        intros [post E]. rewrite append_cons in E. congruence.
Qed.

Lemma includes_iff (s needle : string) :
  Js.includes s needle = true <-> contains s needle.
Proof.
  induction s as [|c s IH]; cbn [Js.includes];
    rewrite orb_true_iff, prefix_iff.
  - split.
    + intros [[post E] | H]; [| discriminate].
      exists "", post. now rewrite append_nil_l.
    + intros [pre [post E]]. left.
      destruct pre; [| discriminate]. now exists post.
  - rewrite IH. split.
    + intros [[post E] | [pre [post E]]].
      * exists "", post. now rewrite append_nil_l.
      * exists (String c pre), post. now rewrite append_cons, E.
    + intros [pre [post E]]. destruct pre as [|d pre].
      * left. now exists post.
      * right. rewrite append_cons in E. injection E as _ E.
        now exists pre, post.
Qed.

(** ** C4: the EVM key format *)

Section EvmKey.
Import RegExp.

Lemma Lang_Chr c s : Lang (Chr c) s <-> s = String c "".
Proof.
  unfold Chr. split.
  - inversion 1; subst.
    match goal with E : Ascii.eqb _ _ = true |- _ =>
      apply Ascii.eqb_eq in E; now subst end.
  - intros ->. constructor. apply Ascii.eqb_refl.
Qed.

Lemma Lang_Cat_Chr c r s :
  Lang (Cat (Chr c) r) s <-> exists s', s = String c s' /\ Lang r s'.
Proof.
  split.
  - inversion 1 as [| | ? ? s1 s2 H1 H2 | |]; subst.
    apply Lang_Chr in H1 as ->. now exists s2.
  - intros [s' [-> H]].
    change (String c s') with (String c "" +:+ s').
    constructor; [now apply Lang_Chr | assumption].
Qed.

Lemma Lang_Repeat_Class n p s :
  Lang (Repeat n (Class p)) s <->
  String.length s = n /\ all_chars p s = true.
Proof.
  revert s. induction n as [|n IH]; intros s; simpl.
  - split.
    + inversion 1. now split.
    + intros [E _]. destruct s; [constructor | discriminate].
  - split.
    + inversion 1 as [| | ? ? s1 s2 H1 H2 | |]; subst.
      inversion H1 as [| ? c Hc | | |]; subst.
      apply IH in H2 as [<- Hall]. rewrite append_cons, append_nil_l.
      simpl. now rewrite Hc, Hall.
    + intros [E Hall]. destruct s as [|c s]; [discriminate |].
      simpl in *. apply andb_true_iff in Hall as [Hc Hall].
      change (String c s) with (String c "" +:+ s).
      constructor; [now constructor |].
      apply IH. split; [congruence | assumption].
Qed.

End EvmKey.

(** C4. [validateEvmPrivateKey] accepts exactly the strings made of the
    prefix [0x] followed by 64 hexadecimal characters of either case; it
    rejects a string without the prefix, of a length other than 66, or
    with a character after the prefix that is not a hexadecimal digit. *)
Theorem validateEvmPrivateKey_iff (s : string) :
  (validateEvmPrivateKey s = true <-> evm_key_format s) /\
  (String.prefix "0x" s = false \/
   String.length s <> 66 \/
   all_chars hex_digit (String.substring 2 (String.length s - 2) s) = false ->
   validateEvmPrivateKey s = false).
Proof.
  assert (Hiff : validateEvmPrivateKey s = true <-> evm_key_format s).
  { unfold validateEvmPrivateKey, evm_key_pattern, evm_key_format.
    rewrite test_Lang, Lang_Cat_Chr. split.
    - intros [s1 [-> H]]. apply Lang_Cat_Chr in H as [digits [-> H]].
      apply Lang_Repeat_Class in H. now exists digits.
    - intros [digits [-> H]]. exists (String "x" digits).
      split; [reflexivity |].
      apply Lang_Cat_Chr. exists digits. split; [reflexivity |].
      now apply Lang_Repeat_Class. }
  split; [exact Hiff |].
  intros H. destruct (validateEvmPrivateKey s) eqn:E; [| reflexivity].
  destruct (proj1 Hiff eq_refl) as [digits [-> [Hlen Hall]]].
  exfalso. destruct H as [H | [H | H]].
  - assert (String.prefix "0x" ("0x" +:+ digits) = true)
      by (apply prefix_iff; now exists digits).
    congruence.
  - apply H. rewrite !append_cons, append_nil_l. simpl. now rewrite Hlen.
  - rewrite !append_cons, append_nil_l in H. simpl in H.
    rewrite Hlen in H. simpl in H.
    rewrite <- Hlen in H.
    assert (Hsub : forall t, String.substring 0 (String.length t) t = t).
    { induction t as [|c t IHt]; simpl; [reflexivity | now rewrite IHt]. }
    rewrite Hsub in H. congruence.
Qed.

Example validateEvmPrivateKey_accepts :
  validateEvmPrivateKey Reference.evm_key = true.
Proof. reflexivity. Qed.

Example validateEvmPrivateKey_no_prefix :
  validateEvmPrivateKey
    "1234567890abcdef1234567890abcdef1234567890abcdef1234567890abcdef00"
  = false.
Proof. reflexivity. Qed.

Example validateEvmPrivateKey_short :
  validateEvmPrivateKey "0x1234" = false.
Proof. reflexivity. Qed.

Example validateEvmPrivateKey_non_hex :
  validateEvmPrivateKey
    "0x1234567890abcdef1234567890abcdef1234567890abcdef1234567890abcdeg"
  = false.
Proof. reflexivity. Qed.

Example validateEvmPrivateKey_trailing_newline :
  validateEvmPrivateKey (Reference.evm_key +:+ String "010" "") = false.
Proof. reflexivity. Qed.

(** ** C3: the SVM key format *)

(** C3. [validateSvmPrivateKey] is a total function to [bool]: it is true
    exactly when [bs58.decode] returns and returns 64 bytes, and false
    whenever [bs58.decode] throws, whatever it throws. *)
Theorem validateSvmPrivateKey_iff `{Libs : Libraries} (s : string) :
  (validateSvmPrivateKey s = true <->
   exists decoded, bs58_decode s = inr decoded /\ length decoded = 64) /\
  (forall message, bs58_decode s = inl message ->
                   validateSvmPrivateKey s = false).
Proof.
  unfold validateSvmPrivateKey. split.
  - destruct (bs58_decode s) as [message | decoded].
    + split; [discriminate | intros [d [E _]]; discriminate].
    + rewrite Nat.eqb_eq. split.
      * intros H. now exists decoded.
      * intros [d [E H]]. congruence.
  - intros message ->. reflexivity.
Qed.

Example validateSvmPrivateKey_accepts :
  @validateSvmPrivateKey Reference.libraries Reference.svm_key = true.
Proof. reflexivity. Qed.

(** [0], [O], [I] and [l] are not in the base58 alphabet. *)
Example validateSvmPrivateKey_wrong_alphabet :
  @bs58_decode Reference.libraries "0OIl" = inl "Non-base58 character" /\
  @validateSvmPrivateKey Reference.libraries "0OIl" = false.
Proof. split; reflexivity. Qed.

Example validateSvmPrivateKey_wrong_length :
  @bs58_decode Reference.libraries "5Q" = inr [Byte.xff] /\
  @validateSvmPrivateKey Reference.libraries "5Q" = false.
Proof. split; reflexivity. Qed.

Example validateSvmPrivateKey_evm_key :
  @validateSvmPrivateKey Reference.libraries Reference.evm_key = false.
Proof. reflexivity. Qed.

(** ** C1 and C5: chain identifiers *)

Section ChainId.
Context `{Libs : Libraries}.

Lemma getChainIdForWallet_evm (s : string) :
  getChainIdForWallet "evm" s =
  inr (if Js.includes (Js.toLowerCase s) "sepolia" ||
          (s =? "11155111")%string
       then SEPOLIA_CHAIN_ID else EVM_MAINNET_CHAIN_ID).
Proof.
  unfold getChainIdForWallet. simpl.
  now destruct (Js.includes _ _ || _).
Qed.

(** The rule of C1: Sepolia for a string that contains "sepolia" once
    lowered or that is "11155111", the mainnet constant for every other
    string. *)
Lemma getChainIdForWallet_evm_rule (s : string) :
  (contains (Js.toLowerCase s) "sepolia" \/ s = "11155111" ->
   getChainIdForWallet "evm" s = inr SEPOLIA_CHAIN_ID) /\
  (~ contains (Js.toLowerCase s) "sepolia" -> s <> "11155111" ->
   getChainIdForWallet "evm" s = inr EVM_MAINNET_CHAIN_ID).
Proof.
  rewrite getChainIdForWallet_evm, <- includes_iff. split.
  - intros [-> | ->]; [reflexivity |]. now rewrite orb_true_r.
  - intros H1 H2. apply not_true_is_false in H1 as ->.
    apply String.eqb_neq in H2 as ->. reflexivity.
Qed.

Lemma getChainIdForWallet_evm_examples :
  getChainIdForWallet "evm" "11155111" = inr SEPOLIA_CHAIN_ID /\
  getChainIdForWallet "evm" "Sepolia-test" = inr SEPOLIA_CHAIN_ID /\
  getChainIdForWallet "evm" "mainnet" = inr EVM_MAINNET_CHAIN_ID /\
  getChainIdForWallet "evm" "" = inr EVM_MAINNET_CHAIN_ID.
Proof. repeat split; reflexivity. Qed.

(** C1, at the input where the code leaves it.  The README gives
    [eip155:11155111] as the chain id of Sepolia, and the claim expects
    Sepolia for it; the string neither contains "sepolia" nor equals
    "11155111", so the code answers with the mainnet constant. *)
Theorem getChainIdForWallet_evm_caip2_sepolia :
  ~ contains (Js.toLowerCase "eip155:11155111") "sepolia" /\
  "eip155:11155111" <> "11155111" /\
  getChainIdForWallet "evm" "eip155:11155111" = inr EVM_MAINNET_CHAIN_ID.
Proof.
  split; [| split].
  - rewrite <- includes_iff. now vm_compute.
  - discriminate.
  - reflexivity.
Qed.

(** C5. For [svm] the resolver returns the devnet constant when the
    lowered string contains "devnet" and the mainnet constant in every
    other case; "mainnet", the empty string and "testnet" are among the
    latter. *)
Theorem getChainIdForWallet_svm (s : string) :
  (contains (Js.toLowerCase s) "devnet" ->
   getChainIdForWallet "svm" s = inr SOLANA_DEVNET_CHAIN_ID) /\
  (~ contains (Js.toLowerCase s) "devnet" ->
   getChainIdForWallet "svm" s = inr SOLANA_MAINNET_CHAIN_ID) /\
  getChainIdForWallet "svm" "mainnet" = inr SOLANA_MAINNET_CHAIN_ID /\
  getChainIdForWallet "svm" "" = inr SOLANA_MAINNET_CHAIN_ID /\
  getChainIdForWallet "svm" "testnet" = inr SOLANA_MAINNET_CHAIN_ID.
Proof.
  rewrite <- includes_iff. unfold getChainIdForWallet. simpl.
  repeat split.
  - now intros ->.
  - now intros ->%not_true_is_false.
Qed.

Lemma getChainIdForWallet_svm_examples :
  getChainIdForWallet "svm" "devnet" = inr SOLANA_DEVNET_CHAIN_ID /\
  getChainIdForWallet "svm" "Solana-DevNet" = inr SOLANA_DEVNET_CHAIN_ID /\
  getChainIdForWallet "svm" "solana:4uhcVJyU9pJkvQyS88uRDiswHXSCkY3z"
  = inr SOLANA_MAINNET_CHAIN_ID.
Proof. repeat split; reflexivity. Qed.

Lemma getChainIdForWallet_unknown (w s : string) :
  w <> "svm" -> w <> "evm" ->
  getChainIdForWallet w s = inl (UnknownWalletType w).
Proof.
  intros H1%String.eqb_neq H2%String.eqb_neq.
  unfold getChainIdForWallet. now rewrite H1, H2.
Qed.

End ChainId.

(** With the identifiers of the README the answer at [eip155:11155111]
    is Ethereum mainnet, not Sepolia. *)
Example getChainIdForWallet_readme_sepolia :
  @getChainIdForWallet Reference.libraries "evm" "eip155:11155111"
  = inr "eip155:1" /\
  @getChainIdForWallet Reference.libraries "evm" "eip155:11155111"
  <> inr SEPOLIA_CHAIN_ID.
Proof. split; [reflexivity | discriminate]. Qed.

(** ** C2 and C9: the checks of the signer factory *)

Lemma truthy_iff (v : option string) :
  Js.truthy v = true <-> exists s, v = Some s /\ s <> "".
Proof.
  destruct v as [[|c s]|]; simpl; split;
    try discriminate; try (intros [s0 [E H]]; congruence).
  intros _. now exists (String c s).
Qed.

Lemma falsy_iff (v : option string) :
  Js.truthy v = false <-> v = None \/ v = Some "".
Proof.
  destruct v as [[|c s]|]; simpl; split; try tauto; try discriminate.
  intros [? | ?]; discriminate.
Qed.

Lemma Eff_bind_ok {A B : Type} (tr : list Event) (a : A) (f : A -> Eff B) :
  MkEff tr (inr a) ≫= f = MkEff (tr ++ trace (f a)) (result (f a)).
Proof. reflexivity. Qed.

(** A value that is a non-empty string was not found falsy. *)
Ltac falsy_is_set :=
  match goal with
  | F : Js.truthy ?v = false, E : ?v = Some ?s, N : ?s <> "" |- _ =>
      exfalso;
      assert (Js.truthy v = true) by (apply truthy_iff; eauto);
      congruence
  end.

Section Factory.
Context `{Libs : Libraries}.

Lemma validateWalletConfig_known (w pk : string) :
  validateWalletConfig w pk = true -> w = "svm" \/ w = "evm".
Proof.
  unfold validateWalletConfig.
  destruct (String.eqb_spec w "svm"); [tauto |].
  destruct (String.eqb_spec w "evm"); [tauto | discriminate].
Qed.

Lemma validateWalletConfig_empty_evm : validateWalletConfig "evm" "" = false.
Proof. reflexivity. Qed.

(** The chain-id resolver is called on a non-empty string or not at all,
    and returns when the wallet type is one of the two families. *)
Lemma resolveChainId_trace (w : string) (cid : option string) :
  trace (resolveChainId w cid) =
  match cid with
  | Some (String c s) => [Call_getChainIdForWallet w (String c s)]
  | _ => []
  end.
Proof.
  destruct cid as [[|c s]|]; try reflexivity.
  unfold resolveChainId, emit, lift. rewrite Eff_bind_ok.
  cbn [trace]. unfold mbind, Eff_bind. cbn [result trace].
  now destruct (getChainIdForWallet w (String c s)).
Qed.

Lemma resolveChainId_known (w : string) (cid : option string) :
  w = "svm" \/ w = "evm" ->
  exists id, result (resolveChainId w cid) = inr id.
Proof.
  intros Hw. destruct cid as [[|c s]|]; try (now exists None).
  unfold resolveChainId, emit, lift. rewrite Eff_bind_ok.
  cbn [trace result]. unfold mbind, Eff_bind. cbn [result trace].
  destruct Hw as [-> | ->].
  - unfold getChainIdForWallet. cbn [String.eqb Ascii.eqb Bool.eqb].
    cbv iota. destruct (Js.includes _ _); eexists; reflexivity.
  - rewrite getChainIdForWallet_evm. eexists; reflexivity.
Qed.

Lemma createSignerFromConfig_cases (config : SignerConfig) :
  (Js.truthy (walletType config) = false /\
   createSignerFromConfig config = throw WalletTypeRequired) \/
  (Js.truthy (walletType config) = true /\
   Js.truthy (privateKey config) = false /\
   createSignerFromConfig config = throw PrivateKeyRequired) \/
  (exists w pk,
      walletType config = Some w /\ w <> "" /\
      privateKey config = Some pk /\ pk <> "" /\
      ((validateWalletConfig w pk = false /\
        createSignerFromConfig config =
        throw (InvalidPrivateKeyFormat w (expectedFormat w))) \/
       (validateWalletConfig w pk = true /\
        createSignerFromConfig config = construct w pk (chainId config)))).
Proof.
  unfold createSignerFromConfig.
  destruct (walletType config) as [[|a w]|]; [now left | | now left].
  right.
  destruct (privateKey config) as [[|b pk]|]; [now left | | now left].
  right. exists (String a w), (String b pk).
  repeat (split; [reflexivity || discriminate |]).
  destruct (validateWalletConfig _ _); [right | left]; now split.
Qed.

(** After the checks a constructor is called, as the last thing the
    factory does itself, and with the key of the configuration. *)
Lemma construct_known (w pk : string) (cid : option string) :
  w = "svm" \/ w = "evm" ->
  exists id,
    result (resolveChainId w cid) = inr id /\
    trace (construct w pk cid) =
    (trace (resolveChainId w cid) ++
     [Log_info ("Creating " +:+ Js.toUpperCase w +:+
                " signer for chain: " +:+ Js.or_else id "default");
      if (w =? "svm")%string then Call_createSvmSigner pk id
      else Call_createEvmSigner pk id])%list /\
    result (construct w pk cid) =
    if (w =? "svm")%string then Svm <$> createSvmSigner pk id
    else Evm <$> createEvmSigner pk id.
Proof.
  intros Hw. destruct (resolveChainId_known w cid Hw) as [id Hid].
  exists id. split; [assumption |]. unfold construct.
  destruct (resolveChainId w cid) as [tr r]. cbn [result trace] in *.
  subst r. rewrite Eff_bind_ok.
  destruct Hw as [-> | ->]; cbn [String.eqb Ascii.eqb Bool.eqb]; cbv iota;
    unfold emit, lift; rewrite !Eff_bind_ok; cbn [trace result];
    split; reflexivity.
Qed.

Lemma construct_unknown_unreachable (w pk : string) (cid : option string) :
  w = "svm" \/ w = "evm" ->
  forall w', result (construct w pk cid) <> inl (UnknownWalletType w').
Proof.
  intros Hw w'. destruct (construct_known w pk cid Hw) as [id [_ [_ ->]]].
  destruct Hw as [-> | ->]; cbn [String.eqb Ascii.eqb Bool.eqb]; cbv iota.
  - unfold createSvmSigner.
    destruct (bs58_decode pk) as [m | bytes]; [discriminate |].
    cbn. destruct (createKeyPairSignerFromBytes bytes); discriminate.
  - unfold createEvmSigner.
    destruct (privateKeyToAccount pk); discriminate.
Qed.

End Factory.

(** C2, as stated, fails where the private key is present and empty: the
    key is not absent and does not validate, and the factory still
    reports the key as required, not as ill-formed. *)
Lemma createSignerFromConfig_empty_key_not_invalid_format :
  privateKey Reference.empty_key_config = Some "" /\
  @validateWalletConfig Reference.libraries "evm" "" = false /\
  result (@createSignerFromConfig Reference.libraries
            Reference.empty_key_config)
  = inl PrivateKeyRequired /\
  result (@createSignerFromConfig Reference.libraries
            Reference.empty_key_config)
  <> inl (InvalidPrivateKeyFormat "evm" (expectedFormat "evm")).
Proof. repeat split; discriminate. Qed.

(** C2, amended.  The factory throws [WalletTypeRequired] when the wallet
    type is absent or empty; otherwise [PrivateKeyRequired] when the
    private key is absent or empty; otherwise, when the key does not
    validate, [InvalidPrivateKeyFormat], whose message names the wallet
    type and the expected format.  Each of the three is thrown before
    anything else is done, no run that ends in one of them has called a
    signer constructor, and a constructor is called only for a
    configuration that passes all three checks. *)
Theorem createSignerFromConfig_checks `{Libs : Libraries}
    (config : SignerConfig) :
  (walletType config = None \/ walletType config = Some "" ->
   fails_fast (createSignerFromConfig config) WalletTypeRequired) /\
  (forall w,
      walletType config = Some w -> w <> "" ->
      privateKey config = None \/ privateKey config = Some "" ->
      fails_fast (createSignerFromConfig config) PrivateKeyRequired) /\
  (forall w pk,
      walletType config = Some w -> w <> "" ->
      privateKey config = Some pk -> pk <> "" ->
      validateWalletConfig w pk = false ->
      let e := InvalidPrivateKeyFormat w (expectedFormat w) in
      fails_fast (createSignerFromConfig config) e /\
      contains (Error_message e) w /\
      contains (Error_message e) (expectedFormat w)) /\
  (forall e,
      result (createSignerFromConfig config) = inl e ->
      e = WalletTypeRequired \/ e = PrivateKeyRequired \/
      (exists w f, e = InvalidPrivateKeyFormat w f) ->
      constructs_signer (createSignerFromConfig config) = false) /\
  (constructs_signer (createSignerFromConfig config) = true ->
   exists w pk,
     walletType config = Some w /\ w <> "" /\
     privateKey config = Some pk /\ pk <> "" /\
     validateWalletConfig w pk = true).
Proof.
  destruct (createSignerFromConfig_cases config)
    as [[Hw E] | [[Hw [Hpk E]] | [w [pk [Hw [Hw' [Hpk [Hpk' H]]]]]]]].
  - rewrite E. split; [now split |]. split; [| split; [| split]].
    + intros w Ew Hne. falsy_is_set.
    + intros w pk Ew Hne. falsy_is_set.
    + reflexivity.
    + discriminate.
  - rewrite E. split; [| split; [now split | split; [| split]]].
    + apply falsy_iff in Hpk. intros Ew. apply falsy_iff in Ew. congruence.
    + intros w pk _ _ Epk Hne. falsy_is_set.
    + reflexivity.
    + discriminate.
  - split; [intros [? | ?]; congruence |].
    split; [intros w0 _ _ [? | ?]; congruence |]. split; [| split].
    + intros w0 pk0 Ew _ Epk _ Hv.
      assert (w0 = w) by congruence. assert (pk0 = pk) by congruence.
      subst w0 pk0. destruct H as [[_ E] | [Hv' _]]; [| congruence].
      rewrite E. cbn zeta. split; [now split |]. split.
      * now exists "Invalid private key format for ",
          (" wallet. Expected: " +:+ expectedFormat w).
      * exists ("Invalid private key format for " +:+ w +:+
                " wallet. Expected: "), "".
        cbn [Error_message].
        now rewrite !append_assoc, append_nil_r.
    + destruct H as [[_ E] | [Hv E]]; [now rewrite E |].
      intros e He Hkind. exfalso. rewrite E in He.
      pose proof (validateWalletConfig_known w pk Hv) as Hk.
      destruct (construct_known w pk (chainId config) Hk)
        as [id [_ [_ Hres]]].
      rewrite Hres in He. revert He Hkind. clear.
      unfold createSvmSigner, createEvmSigner.
      destruct (w =? "svm")%string.
      * destruct (bs58_decode pk) as [m | bytes]; cbn;
          [| destruct (createKeyPairSignerFromBytes bytes); cbn];
          intros [= <-] || discriminate;
          intros [? | [? | [? [? ?]]]]; discriminate.
      * destruct (privateKeyToAccount pk); cbn;
          intros [= <-] || discriminate;
          intros [? | [? | [? [? ?]]]]; discriminate.
    + intros Hc. exists w, pk. repeat (split; [assumption |]).
      destruct H as [[_ E] | [Hv _]]; [| assumption].
      rewrite E in Hc. discriminate.
Qed.

Example createSignerFromConfig_messages :
  Error_message WalletTypeRequired = "Wallet type is required (svm or evm)" /\
  Error_message PrivateKeyRequired = "Private key is required" /\
  Error_message (InvalidPrivateKeyFormat "svm" (expectedFormat "svm"))
  = "Invalid private key format for svm wallet. Expected: base58 encoded (64 bytes when decoded)" /\
  Error_message (InvalidPrivateKeyFormat "evm" (expectedFormat "evm"))
  = "Invalid private key format for evm wallet. Expected: hex string starting with 0x (64 hex characters)".
Proof. repeat split. Qed.

Example createSignerFromConfig_missing :
  @createSignerFromConfig Reference.libraries
    {| walletType := None; privateKey := Some "x"; chainId := None |}
  = throw WalletTypeRequired /\
  @createSignerFromConfig Reference.libraries
    {| walletType := Some "svm"; privateKey := None; chainId := None |}
  = throw PrivateKeyRequired.
Proof. split; reflexivity. Qed.

Example createSignerFromConfig_evm :
  trace (@createSignerFromConfig Reference.libraries Reference.evm_config)
  = [Call_getChainIdForWallet "evm" "sepolia";
     Log_info "Creating EVM signer for chain: eip155:11155111";
     Call_createEvmSigner Reference.evm_key (Some "eip155:11155111")].
Proof. reflexivity. Qed.

(** C9. Only the wallet types [svm] and [evm] validate, so a
    configuration that passes the three checks has one of the two, a
    signer constructor is called for it, and the factory never throws
    [UnknownWalletType]. *)
Theorem createSignerFromConfig_dispatch `{Libs : Libraries}
    (config : SignerConfig) :
  (forall w pk, validateWalletConfig w pk = true -> w = "svm" \/ w = "evm") /\
  (forall w, w <> "svm" -> w <> "evm" ->
             forall pk, validateWalletConfig w pk = false) /\
  (forall w pk,
      walletType config = Some w -> w <> "" ->
      privateKey config = Some pk -> pk <> "" ->
      validateWalletConfig w pk = true ->
      (w = "svm" \/ w = "evm") /\
      constructs_signer (createSignerFromConfig config) = true) /\
  (forall w,
      result (createSignerFromConfig config) <> inl (UnknownWalletType w)).
Proof.
  split; [apply @validateWalletConfig_known |]. split.
  { intros w H1 H2 pk. destruct (validateWalletConfig w pk) eqn:E;
      [| reflexivity].
    apply validateWalletConfig_known in E. tauto. }
  destruct (createSignerFromConfig_cases config)
    as [[Hw E] | [[Hw [Hpk E]] | [w [pk [Hw [Hw' [Hpk [Hpk' H]]]]]]]].
  - rewrite E. split; [| discriminate].
    intros w pk Ew Hne. falsy_is_set.
  - rewrite E. split; [| discriminate].
    intros w pk _ _ Epk Hne. falsy_is_set.
  - destruct H as [[Hv E] | [Hv E]]; rewrite E.
    + split; [| discriminate]. intros w0 pk0 Ew _ Epk _ Hv0. congruence.
    + pose proof (validateWalletConfig_known w pk Hv) as Hk. split.
      * intros w0 pk0 Ew _ Epk _ _.
        assert (w0 = w) by congruence. subst w0. split; [assumption |].
        destruct (construct_known w pk (chainId config) Hk)
          as [id [_ [Htr _]]].
        unfold constructs_signer. rewrite Htr, existsb_app.
        apply orb_true_iff. right.
        destruct Hk as [-> | ->]; reflexivity.
      * now apply construct_unknown_unreachable.
Qed.

Example validateWalletConfig_other_family :
  @validateWalletConfig Reference.libraries "btc" Reference.evm_key = false /\
  @validateWalletConfig Reference.libraries "EVM" Reference.evm_key = false /\
  @validateWalletConfig Reference.libraries "evm" Reference.evm_key = true.
Proof. repeat split. Qed.

(** The factory never asks for the chain id of the empty string. *)
Lemma createSignerFromConfig_resolves_nonempty `{Libs : Libraries}
    (config : SignerConfig) (w : string) :
  Call_getChainIdForWallet w "" ∉ trace (createSignerFromConfig config).
Proof.
  destruct (createSignerFromConfig_cases config)
    as [[_ E] | [[_ [_ E]] | [w0 [pk [_ [_ [_ [_ [[_ E] | [Hv E]]]]]]]]]];
    rewrite E; try apply not_elem_of_nil.
  apply validateWalletConfig_known in Hv.
  destruct (construct_known w0 pk (chainId config) Hv) as [id [_ [-> _]]].
  rewrite resolveChainId_trace. intros Hin.
  apply elem_of_app in Hin as [Hin | Hin].
  - destruct (chainId config) as [[|c s]|];
      try (now apply elem_of_nil in Hin).
    apply list_elem_of_singleton in Hin. discriminate.
  - apply elem_of_cons in Hin as [Hin | Hin]; [discriminate |].
    apply list_elem_of_singleton in Hin.
    destruct (w0 =? "svm")%string; discriminate.
Qed.

(** Without a chain id the constructors fall back on the mainnet of their
    family. *)
Lemma createSigner_default `{Libs : Libraries} (pk : string) :
  (forall s, createSvmSigner pk None = inr s ->
             svm_chainId s = SOLANA_MAINNET_CHAIN_ID) /\
  (forall s, createEvmSigner pk None = inr s ->
             evm_chainId s = EVM_MAINNET_CHAIN_ID).
Proof.
  split; intros s.
  - unfold createSvmSigner.
    destruct (bs58_decode pk) as [m | bytes]; [discriminate |]. cbn.
    destruct (createKeyPairSignerFromBytes bytes); [discriminate |]. cbn.
    now intros [= <-].
  - unfold createEvmSigner.
    destruct (privateKeyToAccount pk); [discriminate |]. cbn.
    now intros [= <-].
Qed.

(** ** C6, C7, C8 and C10: the configuration resolver *)

Section Resolver.
Context `{Nums : Numbers}.
Variable runtime : IAgentRuntime.
Variable env : gmap string string.

(** C6. A value of the settings store that is neither [undefined] nor
    [null] is returned, a string as it is and a number or a boolean as
    its string; otherwise the environment variable of the same name is
    returned when it is set, and the default (which may be [undefined])
    when it is not. *)
Theorem getSetting_spec (key : string) (defaultValue : option string) :
  (forall s, runtime_getSetting runtime key = VString s ->
             getSetting runtime env key defaultValue = Some s) /\
  (forall n, runtime_getSetting runtime key = VNumber n ->
             getSetting runtime env key defaultValue
             = Some (Number_toString n)) /\
  (forall b, runtime_getSetting runtime key = VBoolean b ->
             getSetting runtime env key defaultValue
             = Some (if b then "true" else "false")) /\
  (runtime_getSetting runtime key = VUndefined \/
   runtime_getSetting runtime key = VNull ->
   (forall v, env !! key = Some v ->
              getSetting runtime env key defaultValue = Some v) /\
   (env !! key = None ->
    getSetting runtime env key defaultValue = defaultValue)).
Proof.
  unfold getSetting. repeat split.
  - now intros s ->.
  - now intros n ->.
  - now intros [] ->.
  - destruct H as [-> | ->]; now intros v ->.
  - destruct H as [-> | ->]; now intros ->.
Qed.

(** The store wins over the environment, whatever the environment
    holds for the key. *)
Lemma getSetting_store_first (key s e : string) (d : option string) :
  runtime_getSetting runtime key = VString s ->
  getSetting runtime (<[key := e]> env) key d = Some s.
Proof. unfold getSetting. now intros ->. Qed.

Lemma getSetting_env_second (key e : string) (d : option string) :
  runtime_getSetting runtime key = VUndefined ->
  getSetting runtime (<[key := e]> env) key d = Some e.
Proof.
  unfold getSetting. intros ->. cbn. now rewrite lookup_insert_eq.
Qed.

Lemma getWalletType_known (w : string) :
  getWalletType runtime env = Some w -> w = "svm" \/ w = "evm".
Proof.
  unfold getWalletType.
  destruct (getSetting runtime env "AIMO_WALLET_TYPE" None) as [s|];
    [| discriminate].
  destruct (decide (s = "svm")) as [-> | H1]; [intros [= <-]; tauto |].
  destruct (decide (s = "evm")) as [-> | H2]; [intros [= <-]; tauto |].
  rewrite !bool_decide_eq_true_2 by congruence.
  rewrite orb_true_r. discriminate.
Qed.

(** C8. The wallet type is the resolved setting when that is exactly
    "svm" or "evm", and [undefined] for every other resolved value and
    for none. *)
Theorem getWalletType_spec :
  (forall w, getWalletType runtime env = Some w <->
             getSetting runtime env "AIMO_WALLET_TYPE" None = Some w /\
             (w = "svm" \/ w = "evm")) /\
  (getWalletType runtime env = None <->
   getSetting runtime env "AIMO_WALLET_TYPE" None <> Some "svm" /\
   getSetting runtime env "AIMO_WALLET_TYPE" None <> Some "evm").
Proof.
  unfold getWalletType.
  destruct (getSetting runtime env "AIMO_WALLET_TYPE" None) as [s|] eqn:E.
  - destruct (decide (s = "svm")) as [-> | H1];
      [| destruct (decide (s = "evm")) as [-> | H2]].
    + cbn. split; [| split; [discriminate | tauto]].
      intros w. split; [intros [= <-]; tauto | tauto].
    + cbn. split; [| split; [discriminate | tauto]].
      intros w. split; [intros [= <-]; tauto | tauto].
    + assert (Hnone :
        (if Js.not (Some s) ||
            (bool_decide (Some s ≠ Some "svm") &&
             bool_decide (Some s ≠ Some "evm"))
         then None else Some s) = None).
      { rewrite !bool_decide_eq_true_2 by congruence.
        now rewrite orb_true_r. }
      rewrite Hnone. split.
      * intros w. split; [discriminate |].
        intros [[= <-] [H | H]]; congruence.
      * split; [intros _; split; congruence | reflexivity].
  - cbn. split.
    + intros w. split; [discriminate | intros [H _]; discriminate].
    + split; [intros _; split; discriminate | reflexivity].
Qed.

(** C7, amended.  The resolver returns [undefined] when the wallet type
    is missing, or the private key is missing or empty; otherwise it
    returns the resolved wallet type, private key and chain id, and it
    does so whatever the key looks like. *)
Theorem getSignerConfig_spec :
  (getWalletType runtime env = None \/
   getPrivateKey runtime env = None \/
   getPrivateKey runtime env = Some "" ->
   getSignerConfig runtime env = None) /\
  (forall w pk,
      getWalletType runtime env = Some w ->
      getPrivateKey runtime env = Some pk -> pk <> "" ->
      getSignerConfig runtime env =
      Some {| walletType := Some w;
              privateKey := Some pk;
              chainId := getChainId runtime env |}).
Proof.
  unfold getSignerConfig. split.
  - intros [-> | [-> | ->]]; [reflexivity | |];
      now rewrite orb_true_r.
  - intros w pk Hw Hpk Hne.
    destruct (getWalletType_known w Hw) as [-> | ->];
      rewrite Hw, Hpk; destruct pk; try congruence; reflexivity.
Qed.

(** [getChainId] has no empty result. *)
Lemma getChainId_spec :
  getChainId runtime env =
  match getSetting runtime env "AIMO_CHAIN_ID" None with
  | Some (String c s) => Some (String c s)
  | Some EmptyString | None => None
  end.
Proof.
  unfold getChainId.
  now destruct (getSetting runtime env "AIMO_CHAIN_ID" None) as [[|c s]|].
Qed.

(** C10. An absent or empty [AIMO_CHAIN_ID] gives no chain id; the
    configuration that [getSignerConfig] builds carries the result of
    [getChainId], hence no chain id in these two cases, and the factory
    run on that configuration does not resolve the empty string. *)
Theorem getChainId_normalizes `{Libs : Libraries} :
  (getSetting runtime env "AIMO_CHAIN_ID" None = None \/
   getSetting runtime env "AIMO_CHAIN_ID" None = Some "" ->
   getChainId runtime env = None) /\
  getChainId runtime env <> Some "" /\
  (forall config,
      getSignerConfig runtime env = Some config ->
      chainId config = getChainId runtime env /\
      (getSetting runtime env "AIMO_CHAIN_ID" None = None \/
       getSetting runtime env "AIMO_CHAIN_ID" None = Some "" ->
       chainId config = None) /\
      forall w,
        Call_getChainIdForWallet w ""
        ∉ trace (createSignerFromConfig config)).
Proof.
  assert (H1 : getSetting runtime env "AIMO_CHAIN_ID" None = None \/
               getSetting runtime env "AIMO_CHAIN_ID" None = Some "" ->
               getChainId runtime env = None).
  { rewrite getChainId_spec. now intros [-> | ->]. }
  split; [exact H1 |]. split.
  - rewrite getChainId_spec.
    now destruct (getSetting runtime env "AIMO_CHAIN_ID" None) as [[|c s]|].
  - intros config Hc.
    assert (E : chainId config = getChainId runtime env).
    { unfold getSignerConfig in Hc.
      destruct (Js.not _ || Js.not _); [discriminate |].
      now injection Hc as <-. }
    split; [exact E |]. split.
    + intros H. rewrite E. now apply H1.
    + intros w. apply createSignerFromConfig_resolves_nonempty.
Qed.

End Resolver.

(** C7, as stated, fails where the private key resolves to the empty
    string: the wallet type and the private key are both resolved, and no
    configuration is returned. *)
Lemma getSignerConfig_empty_key_is_none :
  getWalletType Reference.empty_key_store ∅ = Some "evm" /\
  getPrivateKey Reference.empty_key_store ∅ = Some "" /\
  getSignerConfig Reference.empty_key_store ∅ = None.
Proof. repeat split; vm_compute; reflexivity. Qed.

(** A malformed key is passed on, and an empty chain id is dropped; the
    factory then rejects the key. *)
Example getSignerConfig_malformed_key :
  getSignerConfig Reference.evm_store ∅ =
  Some {| walletType := Some "evm";
          privateKey := Some "not-a-key";
          chainId := None |} /\
  @validateWalletConfig Reference.libraries "evm" "not-a-key" = false.
Proof. split; vm_compute; reflexivity. Qed.

Example getSetting_coerces :
  let runtime :=
    Reference.store [("PORT", @VNumber Reference.numbers 8080%Z);
                     ("DEBUG", VBoolean true);
                     ("NOTHING", VNull)] in
  let env : gmap string string :=
    {[ "PORT" := "1"; "NOTHING" := "from-env" ]} in
  getSetting runtime env "PORT" None = Some "8080" /\
  getSetting runtime env "DEBUG" (Some "d") = Some "true" /\
  getSetting runtime env "NOTHING" (Some "d") = Some "from-env" /\
  getSetting runtime env "ABSENT" (Some "d") = Some "d" /\
  getSetting runtime env "ABSENT" None = None.
Proof. repeat split; vm_compute; reflexivity. Qed.

Example getWalletType_examples :
  getWalletType (Reference.store [("AIMO_WALLET_TYPE", VString "svm")]) ∅
  = Some "svm" /\
  getWalletType (Reference.store [("AIMO_WALLET_TYPE", VString "")]) ∅
  = None /\
  getWalletType (Reference.store [("AIMO_WALLET_TYPE", VString "EVM")]) ∅
  = None /\
  getWalletType (Reference.store []) ∅ = None /\
  getWalletType (Reference.store []) {[ "AIMO_WALLET_TYPE" := "evm" ]}
  = Some "evm".
Proof. repeat split; vm_compute; reflexivity. Qed.

(** ** The theorems at concrete inputs *)

Lemma validateEvmPrivateKey_iff_witness : evm_key_format Reference.evm_key.
Proof.
  apply (proj1 (proj1 (validateEvmPrivateKey_iff Reference.evm_key))).
  reflexivity.
Defined.

Lemma validateSvmPrivateKey_iff_witness :
  exists decoded,
    @bs58_decode Reference.libraries Reference.svm_key = inr decoded /\
    length decoded = 64.
Proof.
  apply (proj1 (proj1 (@validateSvmPrivateKey_iff Reference.libraries
                         Reference.svm_key))).
  reflexivity.
Defined.

Lemma getChainIdForWallet_svm_witness :
  @getChainIdForWallet Reference.libraries "svm" "Devnet-1"
  = inr "solana:EtWTRABZaYq6iMfeYKouRu166VU2xqa1".
Proof.
  apply (proj1 (@getChainIdForWallet_svm Reference.libraries "Devnet-1")).
  exists "", "-1". reflexivity.
Defined.

Lemma createSignerFromConfig_checks_witness :
  fails_fast
    (@createSignerFromConfig Reference.libraries
       {| walletType := Some "svm";
          privateKey := Some "not base58!";
          chainId := Some "devnet" |})
    (InvalidPrivateKeyFormat "svm" "base58 encoded (64 bytes when decoded)").
Proof.
  destruct (@createSignerFromConfig_checks Reference.libraries
              {| walletType := Some "svm";
                 privateKey := Some "not base58!";
                 chainId := Some "devnet" |}) as [_ [_ [H _]]].
  apply (H "svm" "not base58!");
    solve [reflexivity | discriminate].
Defined.

Lemma createSignerFromConfig_dispatch_witness :
  constructs_signer
    (@createSignerFromConfig Reference.libraries Reference.evm_config)
  = true.
Proof.
  destruct (@createSignerFromConfig_dispatch Reference.libraries
              Reference.evm_config) as [_ [_ [H _]]].
  apply (H "evm" Reference.evm_key);
    solve [reflexivity | discriminate].
Defined.

Lemma getSetting_spec_witness :
  getSetting (Reference.store []) {[ "AIMO_BASE_URL" := "http://localhost" ]}
    "AIMO_BASE_URL" (Some "https://beta.aimo.network")
  = Some "http://localhost".
Proof.
  destruct (getSetting_spec (Reference.store [])
              {[ "AIMO_BASE_URL" := "http://localhost" ]}
              "AIMO_BASE_URL" (Some "https://beta.aimo.network"))
    as [_ [_ [_ H]]].
  apply H; [left |]; reflexivity.
Defined.

Lemma getWalletType_spec_witness :
  getWalletType
    (Reference.store [("AIMO_WALLET_TYPE", VString "evm")])
    {[ "AIMO_WALLET_TYPE" := "svm" ]}
  = Some "evm".
Proof.
  apply (proj1 (getWalletType_spec
                  (Reference.store [("AIMO_WALLET_TYPE", VString "evm")])
                  {[ "AIMO_WALLET_TYPE" := "svm" ]})).
  split; [reflexivity | now right].
Defined.

Lemma getSignerConfig_spec_witness :
  getSignerConfig Reference.evm_store ∅ =
  Some {| walletType := Some "evm";
          privateKey := Some "not-a-key";
          chainId := getChainId Reference.evm_store ∅ |}.
Proof.
  apply (proj2 (getSignerConfig_spec Reference.evm_store ∅));
    solve [reflexivity | discriminate].
Defined.

Lemma getChainId_normalizes_witness :
  chainId {| walletType := Some "evm";
             privateKey := Some "not-a-key";
             chainId := None |} = None /\
  Call_getChainIdForWallet "evm" ""
  ∉ trace (@createSignerFromConfig Reference.libraries
             {| walletType := Some "evm";
                privateKey := Some "not-a-key";
                chainId := None |}).
Proof.
  destruct (@getChainId_normalizes Reference.numbers Reference.evm_store ∅
              Reference.libraries) as [_ [_ H]].
  destruct (H {| walletType := Some "evm";
                 privateKey := Some "not-a-key";
                 chainId := None |}) as [_ [H1 H2]].
  - reflexivity.
  - split; [apply H1; now right | apply H2].
Defined.

(** * Further properties *)

(** ** The signer factory, end to end *)

Section FactoryRuns.
Context `{Libs : Libraries}.

(** Every run of the factory: one of the three early errors, or the two
    calls after the checks, for one of the two families. *)
Lemma createSignerFromConfig_runs (config : SignerConfig) :
  (exists e,
      createSignerFromConfig config = throw e /\
      (e = WalletTypeRequired \/ e = PrivateKeyRequired \/
       exists w pk,
         walletType config = Some w /\ privateKey config = Some pk /\
         validateWalletConfig w pk = false /\
         e = InvalidPrivateKeyFormat w (expectedFormat w)) /\
      forall w pk,
        walletType config = Some w -> w <> "" ->
        privateKey config = Some pk -> pk <> "" ->
        validateWalletConfig w pk = false) \/
  (exists w pk id,
      walletType config = Some w /\ (w = "svm" \/ w = "evm") /\
      privateKey config = Some pk /\ pk <> "" /\
      validateWalletConfig w pk = true /\
      result (resolveChainId w (chainId config)) = inr id /\
      trace (createSignerFromConfig config) =
      (trace (resolveChainId w (chainId config)) ++
       [Log_info ("Creating " +:+ Js.toUpperCase w +:+
                  " signer for chain: " +:+ Js.or_else id "default");
        if (w =? "svm")%string then Call_createSvmSigner pk id
        else Call_createEvmSigner pk id])%list /\
      result (createSignerFromConfig config) =
      if (w =? "svm")%string then Svm <$> createSvmSigner pk id
      else Evm <$> createEvmSigner pk id).
Proof.
  destruct (createSignerFromConfig_cases config)
    as [[Hw E] | [[Hw [Hpk E]] | [w [pk [Hw [Hw' [Hpk [Hpk' H]]]]]]]].
  - left. exists WalletTypeRequired. split; [assumption |].
    split; [tauto |]. intros w pk Ew Hne. falsy_is_set.
  - left. exists PrivateKeyRequired. split; [assumption |].
    split; [tauto |]. intros w pk _ _ Epk Hne. falsy_is_set.
  - destruct H as [[Hv E] | [Hv E]].
    + left. exists (InvalidPrivateKeyFormat w (expectedFormat w)).
      split; [assumption |]. split.
      * right. right. now exists w, pk.
      * intros w0 pk0 Ew _ Epk _. congruence.
    + right. pose proof (validateWalletConfig_known w pk Hv) as Hk.
      destruct (construct_known w pk (chainId config) Hk)
        as [id [Hid [Htr Hres]]].
      exists w, pk, id. rewrite E. now repeat split.
Qed.

(** The chain id that the resolver returns for a known family is the one
    of [getChainIdForWallet], with the absent and the empty chain id read
    as the empty string and no result read as the family's mainnet. *)
Lemma resolveChainId_default (w : string) (cid id : option string) :
  w = "svm" \/ w = "evm" ->
  result (resolveChainId w cid) = inr id ->
  getChainIdForWallet w (nullish_else cid "") =
  inr (default (if (w =? "svm")%string then SOLANA_MAINNET_CHAIN_ID
                else EVM_MAINNET_CHAIN_ID) id).
Proof.
  intros Hw. destruct cid as [[|c s]|].
  - intros [= <-]. now destruct Hw as [-> | ->].
  - unfold resolveChainId, emit, lift. rewrite Eff_bind_ok.
    cbn [trace result nullish_else]. unfold mbind, Eff_bind.
    cbn [result trace].
    destruct (getChainIdForWallet w (String c s)) as [e | r];
      [discriminate |].
    cbn. now intros [= <-].
  - intros [= <-]. now destruct Hw as [-> | ->].
Qed.

(** X1. A signer that the factory returns is of the family of the
    configured wallet type, and its chain id is the one that
    [getChainIdForWallet] gives for the configured chain id, an absent
    chain id counting as the empty string. *)
Theorem createSignerFromConfig_signer (config : SignerConfig)
    (signer : ClientSigner) :
  result (createSignerFromConfig config) = inr signer ->
  match signer with
  | Svm s =>
      walletType config = Some "svm" /\
      getChainIdForWallet "svm" (nullish_else (chainId config) "")
      = inr (svm_chainId s)
  | Evm s =>
      walletType config = Some "evm" /\
      getChainIdForWallet "evm" (nullish_else (chainId config) "")
      = inr (evm_chainId s)
  end.
Proof.
  destruct (createSignerFromConfig_runs config)
    as [[e [E _]] | [w [pk [id [Hw [Hk [_ [_ [_ [Hid [_ Hres]]]]]]]]]]].
  - rewrite E. discriminate.
  - rewrite Hres. pose proof (resolveChainId_default _ _ _ Hk Hid) as Hc.
    destruct Hk as [-> | ->]; cbn [String.eqb Ascii.eqb Bool.eqb] in *;
      cbv iota in *.
    + unfold createSvmSigner.
      destruct (bs58_decode pk) as [m | bytes]; [discriminate |]. cbn.
      destruct (createKeyPairSignerFromBytes bytes); [discriminate |]. cbn.
      intros [= <-]. now split.
    + unfold createEvmSigner.
      destruct (privateKeyToAccount pk); [discriminate |]. cbn.
      intros [= <-]. now split.
Qed.

(** X2. A signer constructor is called at most once, as the last thing
    the factory does, for the family of the configured wallet type, with
    the configured private key, and only when that key has passed the
    format check of the family. *)
Theorem createSignerFromConfig_constructor_call (config : SignerConfig)
    (pk : string) (cid : option string) :
  (Call_createSvmSigner pk cid ∈ trace (createSignerFromConfig config) ->
   walletType config = Some "svm" /\ privateKey config = Some pk /\
   validateSvmPrivateKey pk = true /\
   last (trace (createSignerFromConfig config))
   = Some (Call_createSvmSigner pk cid)) /\
  (Call_createEvmSigner pk cid ∈ trace (createSignerFromConfig config) ->
   walletType config = Some "evm" /\ privateKey config = Some pk /\
   validateEvmPrivateKey pk = true /\
   last (trace (createSignerFromConfig config))
   = Some (Call_createEvmSigner pk cid)) /\
  length (filter (fun ev => is_constructor_call ev = true)
            (trace (createSignerFromConfig config))) <= 1.
Proof.
  destruct (createSignerFromConfig_runs config)
    as [[e [E _]] | [w [pk0 [id [Hw [Hk [Hpk [_ [Hv [_ [Htr _]]]]]]]]]]].
  - rewrite E. cbn. split; [| split]; [| | lia];
      intros H; now apply elem_of_nil in H.
  - rewrite Htr, resolveChainId_trace.
    assert (Hpre : forall ev,
      ev ∈ match chainId config with
           | Some (String c s) => [Call_getChainIdForWallet w (String c s)]
           | _ => []
           end -> is_constructor_call ev = false).
    { intros ev Hin. destruct (chainId config) as [[|c s]|];
        try (now apply elem_of_nil in Hin).
      apply list_elem_of_singleton in Hin. now subst. }
    assert (Hlast : forall (pre : list Event) a b,
               last (pre ++ [a; b])%list = Some b).
    { intros pre a b. change [a; b] with ([a] ++ [b])%list.
      now rewrite app_assoc, last_snoc. }
    rewrite Hlast. unfold validateWalletConfig in Hv.
    split; [| split].
    + intros Hin. apply elem_of_app in Hin as [Hin | Hin];
        [apply Hpre in Hin; discriminate |].
      apply elem_of_cons in Hin as [Hin | Hin]; [discriminate |].
      apply list_elem_of_singleton in Hin.
      destruct Hk as [-> | ->]; cbn [String.eqb Ascii.eqb Bool.eqb] in *;
        cbv iota in *; [| discriminate].
      injection Hin as <- <-. now repeat split.
    + intros Hin. apply elem_of_app in Hin as [Hin | Hin];
        [apply Hpre in Hin; discriminate |].
      apply elem_of_cons in Hin as [Hin | Hin]; [discriminate |].
      apply list_elem_of_singleton in Hin.
      destruct Hk as [-> | ->]; cbn [String.eqb Ascii.eqb Bool.eqb] in *;
        cbv iota in *; [discriminate |].
      injection Hin as <- <-. now repeat split.
    + rewrite filter_app, length_app.
      assert (Hnone : filter (fun ev => is_constructor_call ev = true)
                match chainId config with
                | Some (String c s) =>
                    [Call_getChainIdForWallet w (String c s)]
                | _ => []
                end = []).
      { now destruct (chainId config) as [[|c s]|]. }
      rewrite Hnone. destruct (w =? "svm")%string; vm_compute; lia.
Qed.

(** The factory on a configuration with a wallet type of a known family
    and a non-empty key. *)
Lemma createSignerFromConfig_on (w pk : string) (cid : option string) :
  w = "svm" \/ w = "evm" -> pk <> "" ->
  (validateWalletConfig w pk = false ->
   createSignerFromConfig
     {| walletType := Some w; privateKey := Some pk; chainId := cid |}
   = throw (InvalidPrivateKeyFormat w (expectedFormat w))) /\
  (validateWalletConfig w pk = true ->
   createSignerFromConfig
     {| walletType := Some w; privateKey := Some pk; chainId := cid |}
   = construct w pk cid).
Proof.
  intros Hk Hne. unfold createSignerFromConfig.
  cbn [walletType privateKey chainId].
  destruct pk as [|c pk]; [congruence |].
  destruct Hk as [-> | ->]; split; now intros ->.
Qed.

(** The factory calls a constructor exactly for the configurations that
    pass its three checks. *)
Lemma constructs_signer_iff (config : SignerConfig) :
  constructs_signer (createSignerFromConfig config) = true <->
  exists w pk,
    walletType config = Some w /\ w <> "" /\
    privateKey config = Some pk /\ pk <> "" /\
    validateWalletConfig w pk = true.
Proof.
  destruct (createSignerFromConfig_runs config)
    as [[e [E [_ Hno]]] | [w [pk [id [Hw [Hk [Hpk [Hne [Hv [_ [Htr _]]]]]]]]]]].
  - rewrite E. split; [discriminate |].
    intros [w [pk [Hw [Hw' [Hpk [Hpk' Hv]]]]]].
    rewrite (Hno w pk) in Hv by assumption. discriminate.
  - split.
    + intros _. exists w, pk. repeat split; try assumption.
      destruct Hk as [-> | ->]; discriminate.
    + intros _. unfold constructs_signer. rewrite Htr, existsb_app.
      apply orb_true_iff. right. now destruct (w =? "svm")%string.
Qed.

End FactoryRuns.

(** ** Settings with defaults *)

Section Defaults.
Context `{Nums : Numbers}.
Variable runtime : IAgentRuntime.
Variable env : gmap string string.

Lemma getSetting_default (key d : string) :
  getSetting runtime env key (Some d) =
  Some (nullish_else (getSetting runtime env key None) d).
Proof.
  unfold getSetting.
  destruct (negb (is_undefined _) && negb (is_null _)); [reflexivity |].
  now destruct (env !! key).
Qed.

(** X3. The base URL is never empty: it is the resolved [AIMO_BASE_URL]
    when that is a non-empty string, and the default host when the
    setting is unresolved or empty. *)
Theorem getBaseURL_spec :
  getBaseURL runtime env <> "" /\
  (forall s, getSetting runtime env "AIMO_BASE_URL" None = Some s ->
             s <> "" -> getBaseURL runtime env = s) /\
  (getSetting runtime env "AIMO_BASE_URL" None = None \/
   getSetting runtime env "AIMO_BASE_URL" None = Some "" ->
   getBaseURL runtime env = "https://beta.aimo.network").
Proof.
  unfold getBaseURL. rewrite getSetting_default.
  destruct (getSetting runtime env "AIMO_BASE_URL" None) as [[|c s]|];
    cbn; repeat split; try discriminate; try tauto.
  - intros s0 [= <-]. congruence.
  - intros s0 [= <-] _. reflexivity.
  - intros [H | H]; discriminate.
Qed.

(** X4. A model name is the resolved plugin setting when there is one,
    else the resolved generic setting, else the default model; unlike the
    base URL, a setting resolved to the empty string is taken as it is. *)
Theorem getModel_precedence :
  ((forall s, getSetting runtime env "AIMO_SMALL_MODEL" None = Some s ->
              getSmallModel runtime env = s) /\
   (getSetting runtime env "AIMO_SMALL_MODEL" None = None ->
    (forall s, getSetting runtime env "SMALL_MODEL" None = Some s ->
               getSmallModel runtime env = s) /\
    (getSetting runtime env "SMALL_MODEL" None = None ->
     getSmallModel runtime env = "openai/gpt-4o-mini"))) /\
  ((forall s, getSetting runtime env "AIMO_LARGE_MODEL" None = Some s ->
              getLargeModel runtime env = s) /\
   (getSetting runtime env "AIMO_LARGE_MODEL" None = None ->
    (forall s, getSetting runtime env "LARGE_MODEL" None = Some s ->
               getLargeModel runtime env = s) /\
    (getSetting runtime env "LARGE_MODEL" None = None ->
     getLargeModel runtime env = "openai/gpt-4o"))).
Proof.
  unfold getSmallModel, getLargeModel. rewrite !getSetting_default.
  split; (split; [now intros s -> |]); intros ->; cbn;
    (split; [now intros s -> | now intros ->]).
Qed.

(** What a configuration that [getSignerConfig] returns looks like. *)
Lemma getSignerConfig_Some (config : SignerConfig) :
  getSignerConfig runtime env = Some config ->
  exists w pk,
    (w = "svm" \/ w = "evm") /\ pk <> "" /\
    getWalletType runtime env = Some w /\
    getPrivateKey runtime env = Some pk /\
    config = {| walletType := Some w;
                privateKey := Some pk;
                chainId := getChainId runtime env |}.
Proof.
  unfold getSignerConfig.
  destruct (getWalletType runtime env) as [w|] eqn:Hw; [| discriminate].
  pose proof (getWalletType_known _ _ _ Hw) as Hk.
  destruct (getPrivateKey runtime env) as [[|c pk]|] eqn:Hpk.
  - now rewrite orb_true_r.
  - assert (Js.not (Some w) = false) as ->
      by (destruct Hk as [-> | ->]; reflexivity).
    cbn. intros [= <-]. exists w, (String c pk). now repeat split.
  - now rewrite orb_true_r.
Qed.

Lemma getSignerConfig_None :
  getSignerConfig runtime env = None ->
  getWalletType runtime env = None \/
  getPrivateKey runtime env = None \/
  getPrivateKey runtime env = Some "".
Proof.
  unfold getSignerConfig.
  destruct (getWalletType runtime env) as [w|] eqn:Hw; [| tauto].
  pose proof (getWalletType_known _ _ _ Hw) as Hk.
  destruct (getPrivateKey runtime env) as [[|c pk]|]; try tauto.
  assert (Js.not (Some w) = false) as ->
    by (destruct Hk as [-> | ->]; reflexivity).
  discriminate.
Qed.

End Defaults.

(** ** Validation at start-up and the provider *)

Section Validation.
Context `{Nums : Numbers} `{Libs : Libraries}.
Variable runtime : IAgentRuntime.
Variable env : gmap string string.

(** The cases of a configuration: nothing to build a signer from, a key
    of the wrong format, or a key that validates. *)
Lemma configuration_cases :
  (getSignerConfig runtime env = None /\
   exists m, validateWalletConfiguration runtime env = ([(LWarn, m)], false))
  \/
  (exists w pk,
      (w = "svm" \/ w = "evm") /\ pk <> "" /\
      getSignerConfig runtime env =
      Some {| walletType := Some w;
              privateKey := Some pk;
              chainId := getChainId runtime env |} /\
      ((validateWalletConfig w pk = false /\
        exists m,
          validateWalletConfiguration runtime env = ([(LWarn, m)], false))
       \/
       (validateWalletConfig w pk = true /\
        validateWalletConfiguration runtime env = ([], true)))).
Proof.
  destruct (getSignerConfig runtime env) as [config|] eqn:Hc.
  - right. destruct (getSignerConfig_Some _ _ _ Hc)
      as [w [pk [Hk [Hne [Hw [Hpk ->]]]]]].
    exists w, pk. repeat (split; [assumption || reflexivity |]).
    unfold validateWalletConfiguration. rewrite Hw, Hpk.
    destruct pk as [|c pk]; [congruence |].
    destruct (validateWalletConfig w (String c pk)).
    + right. split; [reflexivity |]. destruct Hk as [-> | ->]; reflexivity.
    + left. split; [reflexivity |].
      destruct Hk as [-> | ->]; eexists; reflexivity.
  - left. split; [reflexivity |].
    unfold validateWalletConfiguration.
    destruct (getSignerConfig_None _ _ Hc) as [Hw | [Hpk | Hpk]].
    + rewrite Hw. eexists; reflexivity.
    + rewrite Hpk. destruct (getWalletType runtime env) as [[|c w]|];
        eexists; reflexivity.
    + rewrite Hpk. destruct (getWalletType runtime env) as [[|c w]|];
        eexists; reflexivity.
Qed.

(** X5. The start-up validation accepts a configuration exactly when
    [getSignerConfig] returns a configuration for which the signer
    factory gets as far as calling a constructor. *)
Theorem validateWalletConfiguration_iff :
  snd (validateWalletConfiguration runtime env) = true <->
  exists config,
    getSignerConfig runtime env = Some config /\
    constructs_signer (createSignerFromConfig config) = true.
Proof.
  destruct configuration_cases
    as [[Hc [m E]] | [w [pk [Hk [Hne [Hc [[Hv [m E]] | [Hv E]]]]]]]];
    rewrite E; cbn [snd].
  - split; [discriminate |]. intros [config [H _]]. congruence.
  - split; [discriminate |]. intros [config [H Hcs]].
    rewrite Hc in H. injection H as <-.
    apply constructs_signer_iff in Hcs
      as [w0 [pk0 [Hw0 [_ [Hpk0 [_ Hv0]]]]]].
    cbn in Hw0, Hpk0. congruence.
  - split; [| reflexivity]. intros _. eexists. split; [exact Hc |].
    apply constructs_signer_iff. exists w, pk.
    repeat split; try assumption. destruct Hk as [-> | ->]; discriminate.
Qed.

(** The start-up task logs the line of success when the validation
    accepts; otherwise it logs two warnings, the cause and the general
    advice.  The announcement comes first in both cases. *)
Lemma initializeAimoRouter_cases :
  (snd (validateWalletConfiguration runtime env) = true /\
   initializeAimoRouter runtime env =
   [(LInfo, "Initializing AiMo Router plugin...");
    (LLog, "AiMo Router plugin initialized successfully")]) \/
  (snd (validateWalletConfiguration runtime env) = false /\
   exists cause advice,
     fst (validateWalletConfiguration runtime env) = [(LWarn, cause)] /\
     initializeAimoRouter runtime env =
     [(LInfo, "Initializing AiMo Router plugin...");
      (LWarn, cause); (LWarn, advice)]).
Proof.
  unfold initializeAimoRouter.
  destruct configuration_cases
    as [[Hc [m E]] | [w [pk [Hk [Hne [Hc [[Hv [m E]] | [Hv E]]]]]]]];
    rewrite E; cbn [fst snd negb app].
  - right. split; [reflexivity |]. now eexists _, _.
  - right. split; [reflexivity |]. now eexists _, _.
  - left. now split.
Qed.

End Validation.

Section ProviderFacts.
Context `{Nums : Numbers} `{PLib : ProviderLibrary}.
Variable runtime : IAgentRuntime.
Variable env : gmap string string.

(** Outside a browser the provider follows the configuration: nothing to
    build a signer from, a key of the wrong format, or a run of the
    factory that ends in a library. *)
Lemma createAimoRouterProvider_cases :
  (snd (validateWalletConfiguration runtime env) = false /\
   createAimoRouterProvider runtime env false
   = ([], inl ConfigurationIncomplete)) \/
  (snd (validateWalletConfiguration runtime env) = false /\
   exists w,
     (w = "svm" \/ w = "evm") /\
     createAimoRouterProvider runtime env false
     = ([], inl (SignerError
                   (InvalidPrivateKeyFormat w (expectedFormat w))))) \/
  (snd (validateWalletConfiguration runtime env) = true /\
   exists config,
     getSignerConfig runtime env = Some config /\
     constructs_signer (createSignerFromConfig config) = true /\
     ((exists m,
          result (createSignerFromConfig config) = inl (LibraryError m) /\
          createAimoRouterProvider runtime env false
          = (trace (createSignerFromConfig config),
             inl (SignerError (LibraryError m)))) \/
      (exists signer line,
          result (createSignerFromConfig config) = inr signer /\
          createAimoRouterProvider runtime env false
          = ((trace (createSignerFromConfig config) ++ [Log_info line])%list,
             match aimoNetwork signer (getBaseURL runtime env) with
             | inl message => inl (ProviderLibraryError message)
             | inr provider => inr provider
             end)))).
Proof.
  unfold createAimoRouterProvider.
  destruct (configuration_cases runtime env)
    as [[Hc [m E]] | [w [pk [Hk [Hne [Hc [[Hv [m E]] | [Hv E]]]]]]]];
    rewrite E, Hc; cbn [snd].
  - left. now split.
  - right. left. split; [reflexivity |]. exists w. split; [assumption |].
    now rewrite (proj1 (createSignerFromConfig_on w pk _ Hk Hne) Hv).
  - right. right. split; [reflexivity |]. eexists. split; [reflexivity |].
    rewrite (proj2 (createSignerFromConfig_on w pk _ Hk Hne) Hv).
    destruct (construct_known w pk (getChainId runtime env) Hk)
      as [id [_ [Htr Hres]]].
    split.
    { unfold constructs_signer. rewrite Htr, existsb_app.
      apply orb_true_iff. right. now destruct (w =? "svm")%string. }
    destruct (result (construct w pk _)) as [e | signer] eqn:Hr.
    + left.
      assert (exists m, e = LibraryError m) as [m ->].
      { revert Hres. unfold createSvmSigner, createEvmSigner.
        destruct (w =? "svm")%string.
        - destruct (bs58_decode pk) as [m | bytes]; cbn;
            [intros [= ->]; now eexists |].
          destruct (createKeyPairSignerFromBytes bytes); cbn;
            [intros [= ->]; now eexists | discriminate].
        - destruct (privateKeyToAccount pk); cbn;
            [intros [= ->]; now eexists | discriminate]. }
      now exists m.
    + right. now eexists _, _.
Qed.

End ProviderFacts.

Section ProviderTheorems.
Context `{Nums : Numbers} `{PLib : ProviderLibrary}.
Variable runtime : IAgentRuntime.
Variable env : gmap string string.

(** X6. Outside a browser the provider fails on the configuration,
    before anything is done, exactly when the start-up validation rejects
    it; when the validation accepts, a signer constructor is called and
    only a library can make the provider fail. *)
Theorem createAimoRouterProvider_validated :
  (snd (validateWalletConfiguration runtime env) = false <->
   fst (createAimoRouterProvider runtime env false) = [] /\
   (snd (createAimoRouterProvider runtime env false)
    = inl ConfigurationIncomplete \/
    exists w,
      snd (createAimoRouterProvider runtime env false)
      = inl (SignerError (InvalidPrivateKeyFormat w (expectedFormat w)))))
  /\
  (snd (validateWalletConfiguration runtime env) = true <->
   existsb is_constructor_call
     (fst (createAimoRouterProvider runtime env false)) = true) /\
  (snd (validateWalletConfiguration runtime env) = true ->
   forall e,
     snd (createAimoRouterProvider runtime env false) = inl e ->
     exists m, e = SignerError (LibraryError m) \/
               e = ProviderLibraryError m).
Proof.
  destruct (createAimoRouterProvider_cases runtime env)
    as [[Hv E] | [[Hv [w [Hk E]]]
       | [Hv [config [Hc [Hcs [[m [Hr E]] | [signer [line [Hr E]]]]]]]]]];
    rewrite Hv, E; cbn [fst snd].
  - split; [| split]; [| split |]; try discriminate.
    + split; [intros _; split; [reflexivity | now left] | reflexivity].
  - split; [| split]; [| split |]; try discriminate.
    + split; [| reflexivity]. intros _. split; [reflexivity |].
      right. now exists w.
  - split; [| split].
    + split; [discriminate |]. intros [Htr _].
      unfold constructs_signer in Hcs. rewrite Htr in Hcs. discriminate.
    + now split.
    + intros _ e [= <-]. exists m. now left.
  - split; [| split].
    + split; [discriminate |]. intros [Htr _].
      now destruct (trace (createSignerFromConfig config)).
    + split; [| reflexivity]. intros _. rewrite existsb_app.
      unfold constructs_signer in Hcs. now rewrite Hcs.
    + intros _ e.
      destruct (aimoNetwork signer (getBaseURL runtime env)) as [m | p];
        [| discriminate].
      intros [= <-]. exists m. now right.
Qed.

(** X7. In a browser the provider fails before it reads a setting,
    whatever the configuration.  And whatever the environment, it never
    fails with the factory's missing wallet type, missing private key or
    unknown wallet type: [getSignerConfig] lets no such configuration
    through. *)
Theorem createAimoRouterProvider_errors (isBrowser : bool) :
  (isBrowser = true ->
   createAimoRouterProvider runtime env isBrowser
   = ([], inl BrowserNotSupported)) /\
  snd (createAimoRouterProvider runtime env isBrowser)
  <> inl (SignerError WalletTypeRequired) /\
  snd (createAimoRouterProvider runtime env isBrowser)
  <> inl (SignerError PrivateKeyRequired) /\
  (forall w,
      snd (createAimoRouterProvider runtime env isBrowser)
      <> inl (SignerError (UnknownWalletType w))).
Proof.
  destruct isBrowser; [repeat split; discriminate |].
  split; [discriminate |].
  destruct (createAimoRouterProvider_cases runtime env)
    as [[Hv E] | [[Hv [w [Hk E]]]
       | [Hv [config [Hc [Hcs [[m [Hr E]] | [signer [line [Hr E]]]]]]]]]];
    rewrite E; cbn [snd]; repeat split; try discriminate;
    intros; destruct (aimoNetwork _ _); discriminate.
Qed.

(** X8. A provider is returned only outside a browser and for a
    configuration that the start-up validation accepts; it is built by
    [aimoNetwork] from the signer that the factory returns for
    [getSignerConfig] and from the base URL, which is not empty. *)
Theorem createAimoRouterProvider_success (isBrowser : bool)
    (provider : Provider) :
  snd (createAimoRouterProvider runtime env isBrowser) = inr provider ->
  isBrowser = false /\
  snd (validateWalletConfiguration runtime env) = true /\
  getBaseURL runtime env <> "" /\
  exists config signer,
    getSignerConfig runtime env = Some config /\
    result (createSignerFromConfig config) = inr signer /\
    aimoNetwork signer (getBaseURL runtime env) = inr provider.
Proof.
  destruct isBrowser; [discriminate |].
  destruct (createAimoRouterProvider_cases runtime env)
    as [[Hv E] | [[Hv [w [Hk E]]]
       | [Hv [config [Hc [Hcs [[m [Hr E]] | [signer [line [Hr E]]]]]]]]]];
    rewrite E; cbn [snd]; try discriminate.
  destruct (aimoNetwork signer (getBaseURL runtime env)) as [m | p] eqn:Ha;
    [discriminate |].
  intros [= <-]. repeat split; try assumption.
  - unfold getBaseURL. rewrite getSetting_default.
    now destruct (getSetting runtime env "AIMO_BASE_URL" None) as [[|c s]|].
  - now exists config, signer.
Qed.

(** X9. The start-up task logs its line of success exactly when a later
    call of the provider, outside a browser and with the same settings,
    gets as far as calling a signer constructor. *)
Theorem initializeAimoRouter_success :
  (LLog, "AiMo Router plugin initialized successfully")
  ∈ initializeAimoRouter runtime env <->
  existsb is_constructor_call
    (fst (createAimoRouterProvider runtime env false)) = true.
Proof.
  assert (Hv : snd (validateWalletConfiguration runtime env) = true <->
               existsb is_constructor_call
                 (fst (createAimoRouterProvider runtime env false)) = true).
  { destruct (createAimoRouterProvider_cases runtime env)
      as [[Hv E] | [[Hv [w [Hk E]]]
         | [Hv [config [Hc [Hcs [[m [Hr E]] | [signer [line [Hr E]]]]]]]]]];
      rewrite Hv, E; cbn [fst snd]; try (split; discriminate).
    - now split.
    - split; [| reflexivity]. intros _. rewrite existsb_app.
      unfold constructs_signer in Hcs. now rewrite Hcs. }
  rewrite <- Hv.
  destruct (initializeAimoRouter_cases runtime env)
    as [[Hval ->] | [Hval [cause [advice [_ ->]]]]]; rewrite Hval.
  - split; [reflexivity |]. intros _.
    apply elem_of_cons. right. apply list_elem_of_singleton. reflexivity.
  - split; [| discriminate]. intros Hin.
    repeat (apply elem_of_cons in Hin as [Hin | Hin]; [discriminate |]).
    now apply elem_of_nil in Hin.
Qed.

End ProviderTheorems.

(** ** Repairing JSON *)

Lemma contains_cons (c : ascii) (s needle : string) :
  contains (String c s) needle <->
  String.prefix needle (String c s) = true \/ contains s needle.
Proof.
  rewrite <- !includes_iff. cbn [Js.includes]. apply orb_true_iff.
Qed.

Lemma prefix_contains (p s needle : string) :
  contains p needle -> String.prefix p s = true -> contains s needle.
Proof.
  intros [pre [post ->]] [rest ->]%prefix_iff.
  exists pre, (post +:+ rest). now rewrite !append_assoc.
Qed.

Lemma replace_fences_length (skip : nat) (text : string) :
  String.length (replace_fences skip text) <= String.length text.
Proof.
  revert skip. induction text as [|c rest IH]; intros skip; [reflexivity |].
  cbn [replace_fences]. destruct skip as [|skip'].
  - repeat match goal with
           | |- context [if ?b then _ else _] => destruct b
           end; cbn [String.length];
      try (specialize (IH 0); lia);
      match goal with
      | |- String.length (replace_fences ?k _) <= _ =>
          specialize (IH k); lia
      end.
  - specialize (IH skip'). cbn [String.length]. lia.
Qed.

(** X10. Removing the fences leaves a text as it is exactly when the text
    holds no run of three backticks; every other text gets shorter. *)
Theorem cleanText_unchanged_iff (text : string) :
  (cleanText text = text <-> ~ contains text fence) /\
  (contains text fence ->
   String.length (cleanText text) < String.length text).
Proof.
  assert (Hshort : forall s, contains s fence ->
                   String.length (cleanText s) < String.length s).
  { unfold cleanText. induction s as [|c rest IH]; intros Hc.
    - apply includes_iff in Hc. discriminate.
    - cbn [replace_fences String.length].
      destruct (String.prefix fence_json (String c rest));
        [pose proof (replace_fences_length 7 rest); lia |].
      destruct (String.prefix fence_close (String c rest));
        [pose proof (replace_fences_length 3 rest); lia |].
      destruct (String.prefix fence (String c rest)) eqn:Hp;
        [pose proof (replace_fences_length 2 rest); lia |].
      apply contains_cons in Hc as [Hc | Hc]; [congruence |].
      specialize (IH Hc). cbn [String.length]. lia. }
  split; [| apply Hshort]. split.
  - intros E Hc. apply Hshort in Hc. rewrite E in Hc. lia.
  - unfold cleanText. induction text as [|c rest IH]; intros Hn;
      [reflexivity |].
    cbn [replace_fences].
    destruct (String.prefix fence_json (String c rest)) eqn:H1.
    { exfalso. apply Hn. eapply prefix_contains; [| exact H1].
      exists "", (String "j" (String "s" (String "o" (String "n"
                    (String "010" ""))))). reflexivity. }
    destruct (String.prefix fence_close (String c rest)) eqn:H2.
    { exfalso. apply Hn. eapply prefix_contains; [| exact H2].
      exists (String "010" ""), "". reflexivity. }
    destruct (String.prefix fence (String c rest)) eqn:H3.
    { exfalso. apply Hn. eapply prefix_contains; [| exact H3].
      exists "", "". reflexivity. }
    rewrite IH; [reflexivity |].
    intros Hc. apply Hn. apply contains_cons. now right.
Qed.

Lemma prefix_cons_ne (d c : ascii) (p s : string) :
  d <> c -> String.prefix (String d p) (String c s) = false.
Proof.
  intros Hne. cbn [String.prefix].
  destruct (ascii_dec d c); [congruence | reflexivity].
Qed.

Lemma prefix_cons_eq (c : ascii) (p s : string) :
  String.prefix (String c p) (String c s) = String.prefix p s.
Proof.
  cbn [String.prefix]. destruct (ascii_dec c c); [reflexivity | congruence].
Qed.

Lemma replace_fences_body (body : string) :
  ~ contains body "`" ->
  replace_fences 0 (body +:+ fence_close) = body.
Proof.
  induction body as [|c b IH]; intros Hn; [reflexivity |].
  assert (Hc : c <> "`"%char).
  { intros ->. apply Hn. exists "", b. reflexivity. }
  assert (Hb : ~ contains b "`").
  { intros H. apply Hn. apply contains_cons. now right. }
  rewrite append_cons. cbn [replace_fences].
  assert (H1 : String.prefix fence_json (String c (b +:+ fence_close))
               = false)
    by (apply prefix_cons_ne; congruence).
  assert (H3 : String.prefix fence (String c (b +:+ fence_close)) = false)
    by (apply prefix_cons_ne; congruence).
  assert (H2 : String.prefix fence_close (String c (b +:+ fence_close))
               = false).
  { unfold fence_close at 1.
    destruct (ascii_dec "010" c) as [<- | Hnl];
      [| now apply prefix_cons_ne].
    rewrite prefix_cons_eq. destruct b as [|d b'].
    - reflexivity.
    - rewrite append_cons. apply prefix_cons_ne.
      intros <-. apply Hb. exists "", b'. reflexivity. }
  rewrite H1, H2, H3. now rewrite IH.
Qed.

(** X11. A text made of the opening fence with its [json] tag, a body
    without backticks and the closing fence is cleaned to the body. *)
Theorem cleanText_fenced (body : string) :
  ~ contains body "`" ->
  cleanText (fence_json +:+ body +:+ fence_close) = body.
Proof.
  intros Hn. unfold cleanText, fence_json.
  rewrite !append_cons, append_nil_l.
  cbn [replace_fences].
  assert (Hp : String.prefix fence_json
                 (fence_json +:+ body +:+ fence_close) = true)
    by (apply prefix_iff; now eexists).
  unfold fence_json in Hp at 2. rewrite !append_cons, append_nil_l in Hp.
  rewrite Hp. now apply replace_fences_body.
Qed.

Section HelperFacts.
Context `{Json : JsonLibrary}.

(** X12. The repair returns a text only for a [JSONParseError], and the
    text it returns is the cleaned text, which parses; it warns exactly
    when the cleaned text of a [JSONParseError] does not parse. *)
Theorem getJsonRepairFunction_spec (text : string) (error : Caught) :
  (forall repaired,
      snd (getJsonRepairFunction text error) = Some repaired <->
      (exists m t, error = JSONParseError m t) /\
      repaired = cleanText text /\
      exists value, JSON_parse repaired = inr value) /\
  (fst (getJsonRepairFunction text error) <> [] <->
   (exists m t, error = JSONParseError m t) /\
   exists reason, JSON_parse (cleanText text) = inl reason).
Proof.
  unfold getJsonRepairFunction. destruct error as [m t | m | m].
  - destruct (JSON_parse (cleanText text)) as [reason | value] eqn:E;
      cbn [fst snd]; split.
    + intros repaired. split; [discriminate |].
      intros [_ [-> [value Hv]]]. congruence.
    + split; [| discriminate]. intros _.
      split; [now eexists _, _ | now eexists].
    + intros repaired. split.
      * intros [= <-]. split; [now eexists _, _ |].
        split; [reflexivity | now exists value].
      * now intros [_ [-> _]].
    + split; [congruence |]. intros [_ [reason H]]. discriminate.
  - cbn. split.
    + intros repaired. split; [discriminate |].
      intros [[m0 [t H]] _]. discriminate.
    + split; [congruence |]. intros [[m0 [t H]] _]. discriminate.
  - cbn. split.
    + intros repaired. split; [discriminate |].
      intros [[m0 [t H]] _]. discriminate.
    + split; [congruence |]. intros [[m0 [t H]] _]. discriminate.
Qed.

(** X13. [handleObjectGenerationError] returns a value exactly for a
    [JSONParseError] whose cleaned text is not empty and parses, and the
    value is that of the cleaned text; it never throws the error of the
    second parse, it wraps exactly the values that are no [Error], and in
    every other case it throws what it was given. *)
Theorem handleObjectGenerationError_spec (error : Caught) :
  (forall value,
      snd (handleObjectGenerationError error) = inr value <->
      exists m text,
        error = JSONParseError m text /\ cleanText text <> "" /\
        JSON_parse (cleanText text) = inr value) /\
  (forall m, snd (handleObjectGenerationError error)
             <> inl (RepairParseError m)) /\
  (forall m, snd (handleObjectGenerationError error) = inl (Wrapped m) <->
             error = NonError m) /\
  ((forall value, snd (handleObjectGenerationError error) <> inr value) ->
   (forall m, error <> NonError m) ->
   snd (handleObjectGenerationError error) = inl Original).
Proof.
  unfold handleObjectGenerationError, getJsonRepairFunction.
  destruct error as [m t | m | m].
  - destruct (JSON_parse (cleanText t)) as [reason | value] eqn:E.
    + cbn [snd]. repeat split; try discriminate; try congruence.
      intros [m0 [t0 [[= _ <-] [_ H]]]]. congruence.
    + destruct (cleanText t) as [|c s] eqn:Ec.
      * cbn [snd]. repeat split; try discriminate; try congruence.
        intros [m0 [t0 [[= _ <-] [H _]]]]. congruence.
      * rewrite E. cbn [snd]. repeat split; try discriminate.
        -- intros [= <-]. exists m, t. rewrite Ec. now repeat split.
        -- intros [m0 [t0 [[= _ <-] [_ H]]]]. rewrite Ec in H. congruence.
        -- intros H _. now specialize (H value).
  - cbn [snd]. repeat split; try discriminate; try congruence.
    intros [m0 [t0 [H _]]]. discriminate.
  - cbn [snd]. repeat split; try discriminate; try congruence.
    + intros [m0 [t0 [H _]]]. discriminate.
    + intros _ H. now specialize (H m).
Qed.

End HelperFacts.

(** ** Chain names and letter case *)

Lemma lower_char_digit (c d : ascii) :
  d = "1"%char \/ d = "5"%char -> Js.lower_char c = d -> c = d.
Proof.
  intros [-> | ->];
    destruct c as [[] [] [] [] [] [] [] []]; vm_compute;
    intros H; try reflexivity; discriminate H.
Qed.

Lemma toLowerCase_sepolia_number (s : string) :
  Js.toLowerCase s = "11155111" -> s = "11155111".
Proof.
  intros H.
  repeat (destruct s as [|? s]; [discriminate H |];
          cbn [Js.toLowerCase] in H;
          injection H as Hc H;
          apply lower_char_digit in Hc; [subst | tauto]).
  destruct s; [reflexivity | discriminate H].
Qed.

(** X14. Chain names are matched without regard to letter case: two
    strings that become equal when lowered resolve alike, for every
    wallet type. *)
Theorem getChainIdForWallet_case_insensitive `{Libs : Libraries}
    (w s s' : string) :
  Js.toLowerCase s = Js.toLowerCase s' ->
  getChainIdForWallet w s = getChainIdForWallet w s'.
Proof.
  intros E.
  assert (Hnum : forall t, (t =? "11155111")%string
                           = (Js.toLowerCase t =? "11155111")%string).
  { intros t. destruct (String.eqb_spec t "11155111") as [-> | Hne].
    - reflexivity.
    - symmetry. apply String.eqb_neq. intros H.
      now apply toLowerCase_sepolia_number in H. }
  unfold getChainIdForWallet. now rewrite (Hnum s), (Hnum s'), E.
Qed.

(** ** One family for a key *)

Lemma leading_ones_base58 (s : string) :
  all_chars base58_char s =
  all_chars base58_char (snd (Reference.leading_ones s)).
Proof.
  induction s as [|c s IH]; [reflexivity |].
  destruct (ascii_dec c "1") as [-> | Hne].
  - cbn [Reference.leading_ones].
    destruct (Reference.leading_ones s) as [n rest]. cbn [snd] in *.
    now rewrite <- IH.
  - assert (Reference.leading_ones (String c s) = (O, String c s)) as ->;
      [| reflexivity].
    destruct c as [[] [] [] [] [] [] [] []]; try reflexivity; congruence.
Qed.

Lemma digits_value_base58 (s : string) (acc n : N) :
  Reference.digits_value s acc = Some n -> all_chars base58_char s = true.
Proof.
  revert acc. induction s as [|c s IH]; intros acc; [reflexivity |].
  cbn [Reference.digits_value all_chars]. unfold base58_char at 1.
  destruct (Reference.index_of c Reference.alphabet) as [d|];
    [| discriminate].
  cbn. apply IH.
Qed.

(** The reference decoder returns only for strings of the alphabet. *)
Lemma decode_base58 (s : string) (bytes : list Byte.byte) :
  Reference.decode s = inr bytes -> all_chars base58_char s = true.
Proof.
  unfold Reference.decode. rewrite leading_ones_base58.
  destruct (Reference.leading_ones s) as [zeroes rest]. cbn [snd].
  destruct (Reference.digits_value rest 0) as [n|] eqn:E; [| discriminate].
  intros _. now apply digits_value_base58 in E.
Qed.

(** X15. When the decoder returns only for strings of the base58
    alphabet, no key has the format of both families: a key that
    validates for [evm] does not validate for [svm]. *)
Theorem validateWalletConfig_one_family `{Libs : Libraries} (key : string) :
  (forall s bytes,
      bs58_decode s = inr bytes -> all_chars base58_char s = true) ->
  validateWalletConfig "evm" key = true ->
  validateWalletConfig "svm" key = false.
Proof.
  intros Hlib Hevm.
  change (validateEvmPrivateKey key = true) in Hevm.
  change (validateSvmPrivateKey key = false).
  unfold validateEvmPrivateKey, evm_key_pattern in Hevm.
  apply test_Lang, Lang_Cat_Chr in Hevm as [rest [-> _]].
  unfold validateSvmPrivateKey.
  destruct (bs58_decode (String "0" rest)) as [m | bytes] eqn:E;
    [reflexivity |].
  apply Hlib in E. discriminate E.
Qed.

(** ** Placeholder embeddings *)

Lemma trimStart_empty_iff (s : string) :
  trimStart s = "" <-> all_chars js_whitespace s = true.
Proof.
  induction s as [|c s IH]; cbn [trimStart all_chars]; [tauto |].
  destruct (js_whitespace c); cbn; [assumption |].
  split; discriminate.
Qed.

Lemma all_chars_rev_app (p : ascii -> bool) (s acc : string) :
  all_chars p (String.rev_app s acc) = all_chars p s && all_chars p acc.
Proof.
  revert acc. induction s as [|c s IH]; intros acc; [reflexivity |].
  cbn [String.rev_app all_chars]. rewrite IH. cbn [all_chars].
  now destruct (p c), (all_chars p s), (all_chars p acc).
Qed.

Lemma rev_app_empty (s acc : string) :
  String.rev_app s acc = "" -> s = "" /\ acc = "".
Proof.
  revert acc. induction s as [|c s IH]; intros acc; [tauto |].
  cbn [String.rev_app]. intros H. apply IH in H as [_ H]. discriminate.
Qed.

(** [!text.trim()] holds exactly for a text of white space only. *)
Lemma trim_empty_iff (s : string) :
  trim s = "" <-> all_chars js_whitespace s = true.
Proof.
  unfold trim, String.rev. split.
  - intros H. apply rev_app_empty in H as [H _].
    apply trimStart_empty_iff in H.
    rewrite all_chars_rev_app, andb_true_r in H.
    apply trimStart_empty_iff.
    destruct (trimStart s) as [|c t] eqn:E; [reflexivity |].
    exfalso. cbn [all_chars] in H. apply andb_true_iff in H as [Hc _].
    clear -E Hc. induction s as [|d s IH]; [discriminate |].
    cbn [trimStart] in E. destruct (js_whitespace d) eqn:Hd; [tauto |].
    injection E as -> _. congruence.
  - intros H. apply trimStart_empty_iff in H. now rewrite H.
Qed.

Section EmbeddingFacts.
Context `{Host : EmbeddingHost}.
Variable runtime : IAgentRuntime.
Variable env : gmap string string.

Lemma placeholder_vector (logged : list LogEntry) (first : Component)
    (v : list Component) :
  snd (placeholder runtime env logged first) = inr v ->
  exists n,
    arrayLength (embeddingDimension runtime env) = Some n /\
    v = first :: replicate (n - 1) C_0.
Proof.
  unfold placeholder.
  destruct (arrayLength (embeddingDimension runtime env)) as [n|];
    [| discriminate].
  cbn [snd]. intros [= <-]. exists n. split; [reflexivity |].
  destruct n as [|n]; [reflexivity |]. cbn. now rewrite Nat.sub_0_r.
Qed.

(** X16. A vector that the embedding handler returns has the length of
    the configured dimension, and at least one component; all components
    but the first are zero, and the first tells the input apart: 0.1 for
    [null], 0.2 for an object without text, 0.3 for a text of white space
    only, 0.4 for every other text. *)
Theorem handleTextEmbedding_vector (params : EmbeddingParams)
    (v : list Component) :
  snd (handleTextEmbedding runtime env params) = inr v ->
  existsb (sameValueZero (embeddingDimension runtime env))
    VECTOR_DIMS_values = true /\
  exists n,
    arrayLength (embeddingDimension runtime env) = Some n /\
    length v = Nat.max n 1 /\
    v = match params with
        | ParamsNull => C_0_1
        | ParamsObject None | ParamsObject (Some EmptyString) => C_0_2
        | ParamsString text | ParamsObject (Some text) =>
            if all_chars js_whitespace text then C_0_3 else C_0_4
        end :: replicate (n - 1) C_0.
Proof.
  unfold handleTextEmbedding.
  destruct (existsb _ _); cbn [negb]; [| discriminate].
  intros H. split; [reflexivity |].
  assert (Hlen : forall n (c : Component),
             length (c :: replicate (n - 1) C_0) = Nat.max n 1).
  { intros n c. cbn. rewrite length_replicate. lia. }
  assert (Hblank : forall text,
             (trim text =? "")%string = all_chars js_whitespace text).
  { intros text. destruct (String.eqb_spec (trim text) "") as [E | E].
    - symmetry. now apply trim_empty_iff.
    - symmetry. apply not_true_is_false. intros Hw.
      now apply trim_empty_iff in Hw. }
  destruct params as [| s | [[|c s]|]]; cbn iota beta in H;
    rewrite ?Hblank in H;
    try (destruct (all_chars js_whitespace _) eqn:Hw);
    try (destruct (placeholder runtime env _ C_0_4) as [logged [e | pv]] eqn:Hp;
         [discriminate H |];
         cbn [snd] in H; injection H as <-;
         assert (Hp' : snd (placeholder runtime env
                              [(LWarn, "TEXT_EMBEDDING is not yet supported by AiMo Network. Returning placeholder embedding.")]
                              C_0_4) = inr pv) by now rewrite Hp);
    match goal with
    | Hv : snd (placeholder _ _ _ _) = inr _ |- _ =>
        apply placeholder_vector in Hv as [n [Hn ->]];
        exists n; rewrite Hlen; now repeat split
    end.
Qed.

(** X17. The dimension is read from [AIMO_EMBEDDING_DIMENSIONS] when that
    is resolved, to whatever string, else from [EMBEDDING_DIMENSIONS],
    else it is that of "1536"; and the handler throws the error of an
    invalid dimension, after logging its message and for every input
    alike, exactly when the dimension is none of [VECTOR_DIMS]. *)
Theorem handleTextEmbedding_dimension :
  (forall s,
      getSetting runtime env "AIMO_EMBEDDING_DIMENSIONS" None = Some s ->
      embeddingDimension runtime env = parseInt10 s) /\
  (getSetting runtime env "AIMO_EMBEDDING_DIMENSIONS" None = None ->
   (forall s,
       getSetting runtime env "EMBEDDING_DIMENSIONS" None = Some s ->
       embeddingDimension runtime env = parseInt10 s) /\
   (getSetting runtime env "EMBEDDING_DIMENSIONS" None = None ->
    embeddingDimension runtime env = parseInt10 "1536")) /\
  (existsb (sameValueZero (embeddingDimension runtime env))
     VECTOR_DIMS_values = false ->
   exists m,
     forall params,
       handleTextEmbedding runtime env params
       = ([(LError, m)], inl (InvalidEmbeddingDimension m))) /\
  (forall params m,
      snd (handleTextEmbedding runtime env params)
      = inl (InvalidEmbeddingDimension m) ->
      existsb (sameValueZero (embeddingDimension runtime env))
        VECTOR_DIMS_values = false).
Proof.
  split; [| split; [| split]].
  - unfold embeddingDimension. now intros s ->.
  - unfold embeddingDimension. intros ->. cbn.
    split; [now intros s -> | now intros ->].
  - intros Hno. eexists. intros params. unfold handleTextEmbedding.
    rewrite Hno. reflexivity.
  - intros params m. unfold handleTextEmbedding.
    destruct (existsb _ _); [| reflexivity]. cbn [negb].
    unfold placeholder.
    destruct params as [| s | [[|c s]|]]; cbn iota beta;
      try (destruct (trim _ =? "")%string);
      destruct (arrayLength _); cbn; discriminate.
Qed.

End EmbeddingFacts.

(** ** Failures of the libraries *)


(** ** The further properties at concrete inputs *)

Lemma createSignerFromConfig_signer_witness :
  walletType Reference.evm_config = Some "evm" /\
  @getChainIdForWallet Reference.libraries "evm" "sepolia"
  = inr "eip155:11155111".
Proof.
  exact (@createSignerFromConfig_signer Reference.libraries
           Reference.evm_config
           (Evm {| evm_signer := Reference.evm_key : @Account Reference.libraries;
                   evm_chainId := "eip155:11155111" |})
           eq_refl).
Defined.

Lemma createSignerFromConfig_constructor_call_witness :
  walletType Reference.evm_config = Some "evm" /\
  privateKey Reference.evm_config = Some Reference.evm_key /\
  validateEvmPrivateKey Reference.evm_key = true /\
  last (trace (@createSignerFromConfig Reference.libraries
                 Reference.evm_config))
  = Some (Call_createEvmSigner Reference.evm_key (Some "eip155:11155111")).
Proof.
  apply (proj1 (proj2 (@createSignerFromConfig_constructor_call
                         Reference.libraries Reference.evm_config
                         Reference.evm_key (Some "eip155:11155111")))).
  cbv [Reference.evm_config]. vm_compute.
  apply elem_of_cons. right. apply elem_of_cons. right.
  apply elem_of_cons. now left.
Defined.

Lemma getBaseURL_spec_witness :
  getBaseURL (Reference.store [("AIMO_BASE_URL", VString "")]) ∅
  = "https://beta.aimo.network".
Proof.
  apply (proj2 (proj2 (getBaseURL_spec
                         (Reference.store [("AIMO_BASE_URL", VString "")])
                         ∅))).
  now right.
Defined.

Lemma getModel_precedence_witness :
  getSmallModel (Reference.store [("AIMO_SMALL_MODEL", VString "")])
    {[ "SMALL_MODEL" := "other/model" ]}
  = "".
Proof.
  apply (proj1 (proj1 (getModel_precedence
                         (Reference.store [("AIMO_SMALL_MODEL", VString "")])
                         {[ "SMALL_MODEL" := "other/model" ]}))).
  reflexivity.
Defined.

Lemma validateWalletConfiguration_iff_witness :
  exists config,
    getSignerConfig Samples.sepolia_store ∅ = Some config /\
    constructs_signer (@createSignerFromConfig Reference.libraries config)
    = true.
Proof.
  apply (proj1 (@validateWalletConfiguration_iff Reference.numbers
                  Reference.libraries Samples.sepolia_store ∅)).
  reflexivity.
Defined.

Lemma createAimoRouterProvider_validated_witness :
  fst (@createAimoRouterProvider Reference.numbers Reference.libraries
         Samples.provider Reference.evm_store ∅ false) = [] /\
  (snd (@createAimoRouterProvider Reference.numbers Reference.libraries
          Samples.provider Reference.evm_store ∅ false)
   = inl ConfigurationIncomplete \/
   exists w,
     snd (@createAimoRouterProvider Reference.numbers Reference.libraries
            Samples.provider Reference.evm_store ∅ false)
     = inl (SignerError (InvalidPrivateKeyFormat w (expectedFormat w)))).
Proof.
  apply (proj1 (proj1 (@createAimoRouterProvider_validated
                         Reference.numbers Reference.libraries
                         Samples.provider Reference.evm_store ∅))).
  reflexivity.
Defined.

Lemma createAimoRouterProvider_errors_witness :
  @createAimoRouterProvider Reference.numbers Reference.libraries
    Samples.provider Samples.sepolia_store ∅ true
  = ([], inl BrowserNotSupported).
Proof.
  apply (proj1 (@createAimoRouterProvider_errors Reference.numbers
                  Reference.libraries Samples.provider
                  Samples.sepolia_store ∅ true)).
  reflexivity.
Defined.

Lemma createAimoRouterProvider_success_witness :
  snd (@validateWalletConfiguration Reference.numbers Reference.libraries
         Samples.sepolia_store ∅) = true /\
  getBaseURL Samples.sepolia_store ∅ <> "".
Proof.
  destruct (@createAimoRouterProvider_success Reference.numbers
              Reference.libraries Samples.provider Samples.sepolia_store ∅
              false
              (Evm {| evm_signer :=
                        Reference.evm_key : @Account Reference.libraries;
                      evm_chainId := "eip155:11155111" |},
               "https://beta.aimo.network"))
    as [_ [H1 [H2 _]]].
  - vm_compute. reflexivity.
  - now split.
Defined.

Lemma initializeAimoRouter_success_witness :
  (LLog, "AiMo Router plugin initialized successfully")
  ∈ @initializeAimoRouter Reference.numbers Reference.libraries
      Samples.sepolia_store ∅.
Proof.
  apply (proj2 (@initializeAimoRouter_success Reference.numbers
                  Reference.libraries Samples.provider
                  Samples.sepolia_store ∅)).
  reflexivity.
Defined.

Lemma cleanText_unchanged_iff_witness :
  String.length (cleanText "see ``` here") < String.length "see ``` here".
Proof.
  apply (proj2 (cleanText_unchanged_iff "see ``` here")).
  now exists "see ", " here".
Defined.

Lemma cleanText_fenced_witness :
  cleanText Samples.fenced_object = "{}".
Proof.
  apply (cleanText_fenced "{}").
  intros H. apply includes_iff in H. discriminate H.
Defined.

Lemma getJsonRepairFunction_spec_witness :
  snd (@getJsonRepairFunction Samples.json Samples.fenced_object
         (JSONParseError "Unexpected token" Samples.fenced_object))
  = Some "{}".
Proof.
  apply (proj1 (@getJsonRepairFunction_spec Samples.json
                  Samples.fenced_object
                  (JSONParseError "Unexpected token" Samples.fenced_object))).
  split; [now eexists _, _ |]. split; [reflexivity | now exists tt].
Defined.

Lemma handleObjectGenerationError_spec_witness :
  snd (@handleObjectGenerationError Samples.json
         (JSONParseError "Unexpected token" Samples.fenced_object))
  = inr tt.
Proof.
  apply (proj1 (@handleObjectGenerationError_spec Samples.json
                  (JSONParseError "Unexpected token"
                     Samples.fenced_object))).
  exists "Unexpected token", Samples.fenced_object.
  split; [reflexivity |]. split; [discriminate | reflexivity].
Defined.

Lemma getChainIdForWallet_case_insensitive_witness :
  @getChainIdForWallet Reference.libraries "svm" "DevNet"
  = @getChainIdForWallet Reference.libraries "svm" "DEVNET".
Proof.
  apply (@getChainIdForWallet_case_insensitive Reference.libraries).
  reflexivity.
Defined.

Lemma validateWalletConfig_one_family_witness :
  @validateWalletConfig Reference.libraries "svm" Reference.evm_key = false.
Proof.
  apply (@validateWalletConfig_one_family Reference.libraries).
  - exact decode_base58.
  - reflexivity.
Defined.

Lemma handleTextEmbedding_vector_witness :
  exists n,
    @arrayLength _ Samples.embedding
      (@embeddingDimension _ Samples.embedding
         (Reference.store [("EMBEDDING_DIMENSIONS", VString "384")]) ∅)
    = Some n /\
    length (C_0_3 :: replicate 383 C_0) = Nat.max n 1.
Proof.
  destruct (@handleTextEmbedding_vector _ Samples.embedding
              (Reference.store [("EMBEDDING_DIMENSIONS", VString "384")]) ∅
              (ParamsString "  ") (C_0_3 :: replicate 383 C_0))
    as [_ [n [Hn [Hlen _]]]].
  - vm_compute. reflexivity.
  - now exists n.
Defined.

Lemma handleTextEmbedding_dimension_witness :
  @embeddingDimension _ Samples.embedding
    (Reference.store [("AIMO_EMBEDDING_DIMENSIONS", VString "")])
    {[ "EMBEDDING_DIMENSIONS" := "384" ]}
  = @parseInt10 _ Samples.embedding "".
Proof.
  apply (proj1 (@handleTextEmbedding_dimension _ Samples.embedding
                  (Reference.store
                     [("AIMO_EMBEDDING_DIMENSIONS", VString "")])
                  {[ "EMBEDDING_DIMENSIONS" := "384" ]})).
  reflexivity.
Defined.

